(** * The Si7013/20/21 humidity and temperature driver (drivers/iio/humidity/si7020.c)

    A shallow embedding of [si7020_read_raw] and [si7020_probe].  The driver
    talks to three collaborators that are not part of the driver file: the I2C
    core (SMBus and raw transfers, adapter capabilities), the kernel clock
    ([jiffies], [usleep_range], [msleep]) and the IIO core (allocation and
    registration).  They are modelled as a [platform] of oracles acting on a
    [world] that carries the clock, the state of the bus and a log of every
    call the driver makes. *)

From Stdlib Require Import QArith.
From Stdlib Require Import ZArith List Bool Lia Strings.Byte String.
Import ListNotations.
Local Open Scope Z_scope.

(** ** Constants of the kernel headers the driver includes

    The headers are not among the sources; the values are the kernel's. *)

(** include/uapi/asm-generic/errno-base.h *)
Definition ENOMEM : Z := 12.
Definition ENODEV : Z := 19.
Definition EINVAL : Z := 22.

(** include/linux/iio/iio.h: the return tags of [read_raw] and the members of
    [enum iio_chan_info_enum] that the driver handles. *)
Definition IIO_VAL_INT : Z := 1.
Definition IIO_VAL_FRACTIONAL : Z := 10.
Definition IIO_CHAN_INFO_RAW : Z := 0.
Definition IIO_CHAN_INFO_SCALE : Z := 2.
Definition IIO_CHAN_INFO_OFFSET : Z := 3.
Definition INDIO_DIRECT_MODE : Z := 1.

(** include/linux/bitops.h *)
Definition BIT (n : Z) : Z := Z.shiftl 1 n.

(** include/uapi/linux/i2c.h and include/linux/i2c.h *)
Definition I2C_FUNC_I2C : Z := 0x00000001.
Definition I2C_FUNC_SMBUS_WRITE_BYTE : Z := 0x00040000.
Definition I2C_FUNC_SMBUS_READ_WORD_DATA : Z := 0x00200000.
Definition I2C_AQ_NO_CLK_STRETCH : Z := BIT 4.

(** An excerpt of [enum iio_chan_type] (include/linux/iio/types.h). *)
Inductive iio_chan_type : Set :=
| IIO_VOLTAGE
| IIO_CURRENT
| IIO_TEMP
| IIO_PRESSURE
| IIO_HUMIDITYRELATIVE.

(** The comparison [a == b] of two channel types. *)
Definition iio_chan_type_eqb (a b : iio_chan_type) : bool :=
  match a, b with
  | IIO_VOLTAGE, IIO_VOLTAGE
  | IIO_CURRENT, IIO_CURRENT
  | IIO_TEMP, IIO_TEMP
  | IIO_PRESSURE, IIO_PRESSURE
  | IIO_HUMIDITYRELATIVE, IIO_HUMIDITYRELATIVE => true
  | _, _ => false
  end.

(** ** The driver's own constants (si7020.c, lines 40 to 57) *)

Definition SI7020CMD_RH_HOLD : Z := 0xE5.
Definition SI7020CMD_RH_NO_HOLD : Z := 0xF5.
Definition SI7020CMD_TEMP_HOLD : Z := 0xE3.
Definition SI7020CMD_TEMP_NO_HOLD : Z := 0xF3.
Definition SI7020CMD_RESET : Z := 0xFE.
Definition SI7020_RH_TIMEOUT : Z := 22800.
Definition SI7020_TEMP_TIMEOUT : Z := 10800.
Definition SI7020_NOHOLD_SLEEP_MIN : Z := 2000.
Definition SI7020_NOHOLD_SLEEP_MAX : Z := 6000.

(** ** Data *)

(** include/linux/platform_data/si7020.h *)
Record si7020_platform_data := { blocking_io : bool }.

(** What the driver reads of [struct i2c_adapter]: the functionality mask and
    the quirk flags ([None] when [adap->quirks] is NULL). *)
Record i2c_adapter := {
  functionality : Z;
  quirks : option Z
}.

(** What the driver reads of [struct i2c_client]. *)
Record i2c_client := {
  adapter : i2c_adapter;
  platform_data : option si7020_platform_data;
  client_name : string
}.

Record iio_chan_spec := {
  type : iio_chan_type;
  info_mask_separate : Z
}.

(** The fields of [struct iio_dev] that [si7020_probe] fills in; [iio_priv]
    is the private area, which holds the client pointer. *)
Record iio_dev := {
  iio_priv : i2c_client;
  name : string;
  modes : Z;
  channels : list iio_chan_spec;
  num_channels : Z
}.

(** The two out-parameters [*val] and [*val2] of [read_raw]. *)
Record outs := { val : Z; val2 : Z }.

(** Lines 142 to 153. *)
Definition si7020_channels : list iio_chan_spec :=
  [ {| type := IIO_HUMIDITYRELATIVE;
       info_mask_separate :=
         Z.lor (Z.lor (BIT IIO_CHAN_INFO_RAW) (BIT IIO_CHAN_INFO_SCALE))
               (BIT IIO_CHAN_INFO_OFFSET) |};
    {| type := IIO_TEMP;
       info_mask_separate :=
         Z.lor (Z.lor (BIT IIO_CHAN_INFO_RAW) (BIT IIO_CHAN_INFO_SCALE))
               (BIT IIO_CHAN_INFO_OFFSET) |} ].

(** ** Adapter capability queries *)

(** Modelled from the spec: the capability query of the bus transport
    collaborator for its primitives ([i2c_check_functionality] of
    include/linux/i2c.h, missing from the sources): every bit asked for is in
    the functionality mask of the adapter. *)
Definition i2c_check_functionality (adap : i2c_adapter) (func : Z) : bool :=
  Z.land func (functionality adap) =? func.

(** Modelled from the spec: the capability query of the bus transport
    collaborator for clock stretching ([i2c_check_quirks] of
    include/linux/i2c.h, missing from the sources): the adapter declares
    quirks and every flag asked for is among them. *)
Definition i2c_check_quirks (adap : i2c_adapter) (q : Z) : bool :=
  match quirks adap with
  | None => false
  | Some flags => Z.land flags q =? q
  end.

(** Modelled from the spec: the optional platform configuration
    ([dev_get_platdata] of include/linux/device.h, missing from the
    sources). *)
Definition dev_get_platdata (client : i2c_client) : option si7020_platform_data :=
  platform_data client.

(** Modelled from the spec: [clamp_val(val, lo, hi)] of
    include/linux/kernel.h, missing from the sources, saturates [val] to
    [lo, hi]: the smaller of [hi] and the larger of [val] and [lo]. *)
Definition clamp_val (v lo hi : Z) : Z := Z.min (Z.max v lo) hi.

(** ** The clock *)

(** The build-time parameters of the kernel clock: the length of a tick in
    microseconds (USEC_PER_SEC / HZ, for a HZ that divides USEC_PER_SEC), the
    width of [unsigned long] and the value of [jiffies] at boot. *)
Record kernel_config := {
  tick_usec : Z;
  BITS_PER_LONG : Z;
  INITIAL_JIFFIES : Z
}.

Definition config_ok (cfg : kernel_config) : Prop :=
  0 < tick_usec cfg /\ 32 <= BITS_PER_LONG cfg.

Section Clock.
Variable cfg : kernel_config.

(** Arithmetic on [unsigned long] wraps around. *)
Definition ulong (x : Z) : Z := x mod 2 ^ BITS_PER_LONG cfg.

(** The cast [(long)x] of an [unsigned long]. *)
Definition slong (x : Z) : Z :=
  if x <? 2 ^ (BITS_PER_LONG cfg - 1) then x else x - 2 ^ BITS_PER_LONG cfg.

(** Modelled from the spec: the monotonic clock of the bus transport
    collaborator.  The kernel's [jiffies] counter is missing from the
    sources; it is an [unsigned long] that advances by one every tick. *)
Definition jiffies_at (usec : Z) : Z :=
  ulong (INITIAL_JIFFIES cfg + usec / tick_usec cfg).

(** Modelled from the spec: [usecs_to_jiffies] (kernel/time/time.c, missing
    from the sources) converts the type-specific timeout to clock ticks,
    rounding up. *)
Definition usecs_to_jiffies (u : Z) : Z :=
  (u + tick_usec cfg - 1) / tick_usec cfg.

(** Modelled from the spec: [time_after(a, b)] (include/linux/jiffies.h,
    missing from the sources) tells whether the elapsed time [a] exceeds
    [b]; the kernel compares the wrapped difference as a signed number. *)
Definition time_after (a b : Z) : bool := slong (ulong (b - a)) <? 0.
End Clock.

(** ** The world the driver acts on *)

(** One entry per call the driver makes to the I2C core or to the sleep
    primitives, with what the call returned. *)
Inductive io_event : Set :=
| IoReadWordSwapped (command ret : Z)
| IoWriteByte (value ret : Z)
| IoMasterRecv (count ret : Z) (b0 b1 : byte)
| IoUsleepRange (umin umax slept : Z)
| IoMsleep (msecs : Z).

Section Driver.
(** The state of the bus and of everything behind it. *)
Variable B : Type.

(** Modelled from the spec: the bus transport and sensor framework
    collaborators, missing from the sources.  Every transfer sees the
    current time and the bus state, and yields its return value (a negative
    errno on failure), the next bus state and the time it took in
    microseconds.  [xfer_master_recv] also yields the contents of the
    two-byte buffer after the call.  [sched_usleep] is the duration the
    scheduler would like a sleep to last. *)
Record platform := {
  xfer_read_word_swapped : Z -> B -> Z -> Z * B * N;
  xfer_write_byte : Z -> B -> Z -> Z * B * N;
  xfer_master_recv : Z -> B -> Z -> Z * (byte * byte) * B * N;
  sched_usleep : Z -> B -> Z;
  iio_device_alloc_ok : B -> bool;
  iio_device_register : B -> iio_dev -> Z
}.

Record world := {
  now : Z;
  bus : B;
  io_log : list io_event
}.

Variable cfg : kernel_config.
Variable plat : platform.

(** Modelled from the spec: the monotonic clock, read in ticks. *)
Definition jiffies (w : world) : Z := jiffies_at cfg (now w).

(** Modelled from the spec: the combined write-byte-then-read-16-bit
    big-endian word primitive of the bus transport ([i2c_smbus_read_word_swapped]
    of include/linux/i2c.h, missing from the sources).  The call takes the
    time the transport says and is entered in the log. *)
Definition i2c_smbus_read_word_swapped (command : Z) (w : world) : Z * world :=
  let '(ret, b, d) := xfer_read_word_swapped plat (now w) (bus w) command in
  (ret, {| now := now w + Z.of_N d; bus := b;
           io_log := io_log w ++ [IoReadWordSwapped command ret] |}).

(** Modelled from the spec: the write-single-byte primitive of the bus
    transport ([i2c_smbus_write_byte], missing from the sources). *)
Definition i2c_smbus_write_byte (value : Z) (w : world) : Z * world :=
  let '(ret, b, d) := xfer_write_byte plat (now w) (bus w) value in
  (ret, {| now := now w + Z.of_N d; bus := b;
           io_log := io_log w ++ [IoWriteByte value ret] |}).

(** Modelled from the spec: the raw-read-N-bytes primitive of the bus
    transport ([i2c_master_recv], missing from the sources); it returns the
    number of bytes read or a negative errno, and fills the buffer. *)
Definition i2c_master_recv (count : Z) (w : world) : Z * (byte * byte) * world :=
  let '(ret, buf, b, d) := xfer_master_recv plat (now w) (bus w) count in
  (ret, buf, {| now := now w + Z.of_N d; bus := b;
                io_log := io_log w ++ [IoMasterRecv count ret (fst buf) (snd buf)] |}).

(** Modelled from the spec: the sleep primitive, missing from the sources;
    [usleep_range(umin, umax)] sleeps for a duration in [umin, umax]. *)
Definition usleep_range (umin umax : Z) (w : world) : world :=
  let d := Z.max umin (Z.min umax (sched_usleep plat (now w) (bus w))) in
  {| now := now w + d; bus := bus w;
     io_log := io_log w ++ [IoUsleepRange umin umax d] |}.

(** Modelled from the spec: [msleep(msecs)], missing from the sources, is
    the fixed, uninterruptible delay after the reset. *)
Definition msleep (msecs : Z) (w : world) : world :=
  {| now := now w + 1000 * msecs; bus := bus w;
     io_log := io_log w ++ [IoMsleep msecs] |}.

(** ** si7020_read_raw *)

(** Lines 72 to 77: the mode of a raw read. *)
Definition si7020_holdmode (client : i2c_client) : bool :=
  match dev_get_platdata client with
  | Some pdata => blocking_io pdata
  | None => negb (i2c_check_quirks (adapter client) I2C_AQ_NO_CLK_STRETCH)
  end.

(** Lines 97 to 99: the timeout of the channel, in microseconds. *)
Definition si7020_timeout (chan : iio_chan_spec) : Z :=
  if iio_chan_type_eqb (type chan) IIO_TEMP
  then SI7020_TEMP_TIMEOUT else SI7020_RH_TIMEOUT.

(** Lines 94 to 103: the polling loop.  It yields the return value of the
    last [i2c_master_recv] and the buffer; [None] when the fuel is used up
    before the loop is left. *)
Fixpoint si7020_poll (fuel : nat) (chan : iio_chan_spec) (start : Z) (w : world)
  : option (Z * (byte * byte) * world) :=
  match fuel with
  | O => None
  | S fuel' =>
      let '(ret, buf, w1) := i2c_master_recv 2 w in
      if ret <? 0 then
        if time_after cfg (jiffies w1)
             (ulong cfg (start + usecs_to_jiffies cfg (si7020_timeout chan)))
        then Some (ret, buf, w1)
        else si7020_poll fuel' chan start
               (usleep_range SI7020_NOHOLD_SLEEP_MIN SI7020_NOHOLD_SLEEP_MAX w1)
      else Some (ret, buf, w1)
  end.

(** An [unsigned char] promoted to [int]. *)
Definition byte_val (b : byte) : Z := Z.of_N (Byte.to_N b).

(** Lines 106 to 112: the end of a successful raw read. *)
Definition si7020_raw_done (chan : iio_chan_spec) (v : Z) (o : outs) (w : world)
  : option (Z * outs * world) :=
  let v := if iio_chan_type_eqb (type chan) IIO_HUMIDITYRELATIVE
           then clamp_val v 786 13893 else v in
  Some (IIO_VAL_INT, {| val := v; val2 := val2 o |}, w).

(** Lines 59 to 140.  [fuel] bounds the passes of the polling loop; the
    result is the return value, the out-parameters and the world after the
    call, or [None] when the fuel did not suffice. *)
Definition si7020_read_raw (fuel : nat) (indio_dev : iio_dev)
    (chan : iio_chan_spec) (o : outs) (mask : Z) (w : world)
  : option (Z * outs * world) :=
  let client := iio_priv indio_dev in
  if mask =? IIO_CHAN_INFO_RAW then
    if si7020_holdmode client then
      let '(ret, w1) :=
        i2c_smbus_read_word_swapped
          (if iio_chan_type_eqb (type chan) IIO_TEMP
           then SI7020CMD_TEMP_HOLD else SI7020CMD_RH_HOLD) w in
      if ret <? 0 then Some (ret, o, w1)
      else si7020_raw_done chan (Z.shiftr ret 2) o w1
    else
      let '(ret, w1) :=
        i2c_smbus_write_byte
          (if iio_chan_type_eqb (type chan) IIO_TEMP
           then SI7020CMD_TEMP_NO_HOLD else SI7020CMD_RH_NO_HOLD) w in
      if ret <? 0 then Some (ret, o, w1)
      else
        let start := jiffies w1 in
        match si7020_poll fuel chan start w1 with
        | None => None
        | Some (ret, buf, w2) =>
            if ret <? 0 then Some (ret, o, w2)
            else si7020_raw_done chan
                   (Z.shiftr (Z.lor (Z.shiftl (byte_val (fst buf)) 8)
                                    (byte_val (snd buf))) 2) o w2
        end
  else if mask =? IIO_CHAN_INFO_SCALE then
    Some (IIO_VAL_FRACTIONAL,
          {| val := if iio_chan_type_eqb (type chan) IIO_TEMP
                    then 175720 else 125 * 1000;
             val2 := Z.shiftr 65536 2 |}, w)
  else if mask =? IIO_CHAN_INFO_OFFSET then
    Some (IIO_VAL_INT,
          {| val := if iio_chan_type_eqb (type chan) IIO_TEMP
                    then -4368 else -786;
             val2 := val2 o |}, w)
  else Some (- EINVAL, o, w).

(** ** si7020_probe *)

(** Lines 187 to 208: reset, power-up delay, allocation, registration. *)
Definition si7020_probe_device (client : i2c_client) (w : world)
  : Z * option iio_dev * world :=
  let '(ret, w1) := i2c_smbus_write_byte SI7020CMD_RESET w in
  if ret <? 0 then (ret, None, w1)
  else
    let w2 := msleep 15 w1 in
    if negb (iio_device_alloc_ok plat (bus w2)) then (- ENOMEM, None, w2)
    else
      let indio_dev :=
        {| iio_priv := client;
           name := client_name client;
           modes := INDIO_DIRECT_MODE;
           channels := si7020_channels;
           num_channels := Z.of_nat (List.length si7020_channels) |} in
      let ret := iio_device_register plat (bus w2) indio_dev in
      (ret, if ret <? 0 then None else Some indio_dev, w2).

(** Lines 160 to 209.  The result is the return value, the device that was
    registered, if any, and the world after the call. *)
Definition si7020_probe (client : i2c_client) (w : world)
  : Z * option iio_dev * world :=
  if negb (i2c_check_functionality (adapter client)
             (Z.lor I2C_FUNC_SMBUS_WRITE_BYTE I2C_FUNC_SMBUS_READ_WORD_DATA))
  then (- ENODEV, None, w)
  else
    match dev_get_platdata client with
    | Some pdata =>
        if blocking_io pdata then
          if i2c_check_quirks (adapter client) I2C_AQ_NO_CLK_STRETCH
          then (- ENODEV, None, w)
          else si7020_probe_device client w
        else if negb (i2c_check_functionality (adapter client) I2C_FUNC_I2C)
        then (- ENODEV, None, w)
        else si7020_probe_device client w
    | None =>
        if negb (i2c_check_functionality (adapter client) I2C_FUNC_I2C)
           && i2c_check_quirks (adapter client) I2C_AQ_NO_CLK_STRETCH
        then (- ENODEV, None, w)
        else si7020_probe_device client w
    end.

End Driver.

Arguments now {B} _.
Arguments bus {B} _.
Arguments io_log {B} _.
Arguments Build_world {B} _ _ _.
Arguments xfer_read_word_swapped {B} _ _ _ _.
Arguments xfer_write_byte {B} _ _ _ _.
Arguments xfer_master_recv {B} _ _ _ _.
Arguments sched_usleep {B} _ _ _.
Arguments iio_device_alloc_ok {B} _ _.
Arguments iio_device_register {B} _ _ _.
Arguments jiffies {B} _ _.
Arguments i2c_smbus_read_word_swapped {B} _ _ _.
Arguments i2c_smbus_write_byte {B} _ _ _.
Arguments i2c_master_recv {B} _ _ _.
Arguments usleep_range {B} _ _ _ _.
Arguments msleep {B} _ _.
Arguments si7020_poll {B} _ _ _ _ _ _.
Arguments si7020_raw_done {B} _ _ _ _.
Arguments si7020_read_raw {B} _ _ _ _ _ _ _ _.
Arguments si7020_probe_device {B} _ _ _.
Arguments si7020_probe {B} _ _ _.

(** ** Observing a run *)


(** The events of the failed attempts of a polling read: each is a two-byte
    read that returned [ret] and left [b0 b1] in the buffer, followed by a
    sleep of [slept] microseconds. *)
Definition retry_events (tries : list (Z * (byte * byte) * Z)) : list io_event :=
  flat_map (fun '(ret, buf, slept) =>
              [IoMasterRecv 2 ret (fst buf) (snd buf);
               IoUsleepRange SI7020_NOHOLD_SLEEP_MIN SI7020_NOHOLD_SLEEP_MAX slept])
           tries.

(** A failed attempt: the read returned an error and the sleep that followed
    stayed within the bounds the driver asks for. *)
Definition failed_try (t : Z * (byte * byte) * Z) : Prop :=
  fst (fst t) < 0
  /\ SI7020_NOHOLD_SLEEP_MIN <= snd t <= SI7020_NOHOLD_SLEEP_MAX.



(** The command bytes a stretch of the log put on the wire, in order. *)
Definition commands_sent (l : list io_event) : list Z :=
  flat_map (fun e => match e with
                     | IoReadWordSwapped command _ => [command]
                     | IoWriteByte value _ => [value]
                     | _ => []
                     end) l.

(** The latest entry of a log. *)
Definition last_event (l : list io_event) : option io_event :=
  match rev l with [] => None | e :: _ => Some e end.



(** Assumptions on a transport: no two-byte read takes longer than [D]
    microseconds; every two-byte read fails. *)
Definition recv_takes_at_most {B : Type} (plat : platform B) (D : Z) : Prop :=
  forall (t : Z) (b : B), Z.of_N (snd (xfer_master_recv plat t b 2)) <= D.

Definition recv_always_fails {B : Type} (plat : platform B) : Prop :=
  forall (t : Z) (b : B), fst (fst (fst (xfer_master_recv plat t b 2))) < 0.

(** Fuel that is enough for the polling loop of a channel: every pass but the
    last sleeps for SI7020_NOHOLD_SLEEP_MIN at least, and no pass starts later
    than one tick and one sleep after the timeout. *)
Definition si7020_poll_fuel (cfg : kernel_config) (chan : iio_chan_spec) : nat :=
  Z.to_nat (((usecs_to_jiffies cfg (si7020_timeout chan) + 1) * tick_usec cfg
             + SI7020_NOHOLD_SLEEP_MAX) / SI7020_NOHOLD_SLEEP_MIN + 1).

(** The physical value the consumer reconstructs from a raw value, as an
    exact rational: (raw + offset) * scale_num / scale_den. *)
Definition processed_value (raw offset scale_num scale_den : Z) : Q :=
  (inject_Z (raw + offset) * (inject_Z scale_num / inject_Z scale_den))%Q.


(** ** Test doubles *)

Module Mock.

(** include/uapi/asm-generic/errno-base.h: what an adapter returns when the
    device does not acknowledge. *)
Definition ENXIO : Z := 6.

(** A scripted transport.  The bus state counts the raw reads made so far. *)
Record script := {
  word : Z;
  write_ret : Z;
  ready_after : option nat;
  sample : byte * byte;
  xfer_usec : N;
  sleep_usec : Z -> Z
}.

Definition transport (s : script) : platform nat := {|
  xfer_read_word_swapped := fun _ n _ => (word s, n, xfer_usec s);
  xfer_write_byte := fun _ n _ => (write_ret s, n, xfer_usec s);
  xfer_master_recv := fun _ n count =>
    match ready_after s with
    | Some k => if (n <? k)%nat then (- ENXIO, (x00, x00), S n, xfer_usec s)
                else (count, sample s, S n, xfer_usec s)
    | None => (- ENXIO, (x00, x00), S n, xfer_usec s)
    end;
  sched_usleep := fun t _ => sleep_usec s t;
  iio_device_alloc_ok := fun _ => true;
  iio_device_register := fun _ _ => 0
|}.

(** Kernel configurations: HZ=1000 and HZ=100 on a 32-bit machine, with the
    kernel's INITIAL_JIFFIES (five minutes before the counter wraps). *)
Definition hz1000 : kernel_config :=
  {| tick_usec := 1000; BITS_PER_LONG := 32; INITIAL_JIFFIES := 2 ^ 32 - 300 * 1000 |}.
Definition hz100 : kernel_config :=
  {| tick_usec := 10000; BITS_PER_LONG := 32; INITIAL_JIFFIES := 2 ^ 32 - 300 * 100 |}.

Definition boot : world nat := {| now := 0; bus := O; io_log := [] |}.

(** 299.99 seconds after boot: [jiffies] is ten ticks short of wrapping at
    HZ=1000. *)
Definition before_wrap : world nat :=
  {| now := 299990000; bus := O; io_log := [] |}.

Definition smbus_funcs : Z :=
  Z.lor I2C_FUNC_SMBUS_WRITE_BYTE I2C_FUNC_SMBUS_READ_WORD_DATA.

(** An adapter that stretches the clock, and one that cannot but offers
    plain I2C transfers. *)
Definition stretching_adapter : i2c_adapter :=
  {| functionality := Z.lor I2C_FUNC_I2C smbus_funcs; quirks := None |}.
Definition no_stretch_adapter : i2c_adapter :=
  {| functionality := Z.lor I2C_FUNC_I2C smbus_funcs;
     quirks := Some I2C_AQ_NO_CLK_STRETCH |}.
(** An adapter that stretches the clock and offers plain I2C transfers but
    none of the SMBus commands. *)
Definition i2c_only_adapter : i2c_adapter :=
  {| functionality := I2C_FUNC_I2C; quirks := None |}.

(** An adapter that cannot stretch the clock and offers plain I2C transfers
    but none of the SMBus commands. *)
Definition i2c_only_no_stretch_adapter : i2c_adapter :=
  {| functionality := I2C_FUNC_I2C; quirks := Some I2C_AQ_NO_CLK_STRETCH |}.

Definition client_on (adap : i2c_adapter) (pdata : option si7020_platform_data)
  : i2c_client :=
  {| adapter := adap; platform_data := pdata; client_name := "1-0040" |}.

Definition device_of (client : i2c_client) : iio_dev :=
  {| iio_priv := client;
     name := client_name client;
     modes := INDIO_DIRECT_MODE;
     channels := si7020_channels;
     num_channels := 2 |}.

Definition humidity : iio_chan_spec :=
  {| type := IIO_HUMIDITYRELATIVE; info_mask_separate := 13 |}.
Definition temperature : iio_chan_spec :=
  {| type := IIO_TEMP; info_mask_separate := 13 |}.

Definition out0 : outs := {| val := 0; val2 := 0 |}.


Definition quiet (s : Z) : Z -> Z := fun _ => s.

(** Hold mode: the device answers the word 0x9234, or 2000 (500 << 2). *)
Definition holds_9234 : script :=
  {| word := 0x9234; write_ret := 0; ready_after := Some O; sample := (x00, x00);
     xfer_usec := 12000; sleep_usec := quiet 3000 |}.
Definition holds_2000 : script :=
  {| word := 2000; write_ret := 0; ready_after := Some O; sample := (x07, xd0);
     xfer_usec := 12000; sleep_usec := quiet 3000 |}.

(** No-hold mode: two reads are not acknowledged, the third yields 4E 20. *)
Definition third_time_lucky : script :=
  {| word := 0; write_ret := 0; ready_after := Some 2%nat; sample := (x4e, x20);
     xfer_usec := 300; sleep_usec := quiet 3000 |}.

(** No-hold mode: the device never answers; transfers take no time, and the
    scheduler grants the longest sleep but once. *)
Definition never_ready : script :=
  {| word := 0; write_ret := 0; ready_after := None; sample := (x00, x00);
     xfer_usec := 0;
     sleep_usec := fun t => if t =? 18000 then 5999 else 6000 |}.

(** The same with transfers of 300 microseconds and sleeps of 3 ms. *)
Definition never_ready_slow : script :=
  {| word := 0; write_ret := 0; ready_after := None; sample := (x00, x00);
     xfer_usec := 300; sleep_usec := quiet 3000 |}.

(** A bus on which no device acknowledges a write. *)
Definition reset_fails : script :=
  {| word := 0; write_ret := - ENXIO; ready_after := None; sample := (x00, x00);
     xfer_usec := 300; sleep_usec := quiet 3000 |}.

End Mock.

(** ** Further observations *)

(** The 16-bit datum a completed transfer carries: the word of a successful
    hold-mode read, or the two bytes of a successful raw read, the first one
    being the more significant. *)
Definition datum_of_event (e : io_event) : option Z :=
  match e with
  | IoReadWordSwapped _ ret => if ret <? 0 then None else Some ret
  | IoMasterRecv _ ret b0 b1 =>
      if ret <? 0 then None else Some (256 * byte_val b0 + byte_val b1)
  | _ => None
  end.

(** Whether an event is a raw read of the polling loop. *)
Definition is_recv (e : io_event) : bool :=
  match e with IoMasterRecv _ _ _ _ => true | _ => false end.

(** How many two-byte reads a log holds. *)
Definition reads_attempted (l : list io_event) : Z :=
  Z.of_nat (List.length (filter is_recv l)).

(** An assumption on a transport: a word read yields a 16-bit word or an
    error. *)
Definition words_are_16_bit {B : Type} (plat : platform B) : Prop :=
  forall (t : Z) (b : B) (command : Z),
    fst (fst (xfer_read_word_swapped plat t b command)) < 65536.

(** A kernel that differs in the value of [jiffies] at boot only. *)
Definition with_initial_jiffies (cfg : kernel_config) (j : Z) : kernel_config :=
  {| tick_usec := tick_usec cfg;
     BITS_PER_LONG := BITS_PER_LONG cfg;
     INITIAL_JIFFIES := j |}.

(** The offsets before rounding, as the comments of lines 131 and 133 give
    them: -46.85 * (65536 >> 2) / 175.72 and -6 * (65536 >> 2) / 125. *)
Definition exact_offset (t : iio_chan_type) : Q :=
  if iio_chan_type_eqb t IIO_TEMP
  then (-46.85 * inject_Z (Z.shiftr 65536 2) / 175.72)%Q
  else (-6 * inject_Z (Z.shiftr 65536 2) / 125)%Q.

Ltac unfold_read := cbv beta delta [si7020_read_raw] zeta.

(** * Properties *)

Section ReadRawFacts.
Context {B : Type}.
Variable cfg : kernel_config.
Variable plat : platform B.

(** ** Transfers and sleeps *)

Lemma read_word_swapped_eq (command : Z) (w : world B) :
  i2c_smbus_read_word_swapped plat command w
  = (fst (fst (xfer_read_word_swapped plat (now w) (bus w) command)),
     {| now := now w
               + Z.of_N (snd (xfer_read_word_swapped plat (now w) (bus w) command));
        bus := snd (fst (xfer_read_word_swapped plat (now w) (bus w) command));
        io_log := io_log w
                  ++ [IoReadWordSwapped command
                        (fst (fst (xfer_read_word_swapped plat (now w) (bus w)
                                     command)))] |}).
Proof.
  unfold i2c_smbus_read_word_swapped.
  now destruct (xfer_read_word_swapped plat (now w) (bus w) command) as [[ret b] d].
Qed.

Lemma write_byte_eq (value : Z) (w : world B) :
  i2c_smbus_write_byte plat value w
  = (fst (fst (xfer_write_byte plat (now w) (bus w) value)),
     {| now := now w + Z.of_N (snd (xfer_write_byte plat (now w) (bus w) value));
        bus := snd (fst (xfer_write_byte plat (now w) (bus w) value));
        io_log := io_log w
                  ++ [IoWriteByte value
                        (fst (fst (xfer_write_byte plat (now w) (bus w) value)))] |}).
Proof.
  unfold i2c_smbus_write_byte.
  now destruct (xfer_write_byte plat (now w) (bus w) value) as [[ret b] d].
Qed.

Lemma master_recv_eq (count : Z) (w : world B) :
  i2c_master_recv plat count w
  = (fst (fst (fst (xfer_master_recv plat (now w) (bus w) count))),
     snd (fst (fst (xfer_master_recv plat (now w) (bus w) count))),
     {| now := now w + Z.of_N (snd (xfer_master_recv plat (now w) (bus w) count));
        bus := snd (fst (xfer_master_recv plat (now w) (bus w) count));
        io_log :=
          io_log w
          ++ [IoMasterRecv count
                (fst (fst (fst (xfer_master_recv plat (now w) (bus w) count))))
                (fst (snd (fst (fst (xfer_master_recv plat (now w) (bus w) count)))))
                (snd (snd (fst (fst (xfer_master_recv plat (now w) (bus w) count)))))] |}).
Proof.
  unfold i2c_master_recv.
  now destruct (xfer_master_recv plat (now w) (bus w) count) as [[[ret buf] b] d].
Qed.

Lemma usleep_range_bounds (umin umax : Z) (w : world B) :
  umin <= umax ->
  umin <= now (usleep_range plat umin umax w) - now w <= umax.
Proof. unfold usleep_range; cbn [now]; lia. Qed.

Lemma nohold_sleep_bounds (w : world B) :
  2000 <= now (usleep_range plat SI7020_NOHOLD_SLEEP_MIN SI7020_NOHOLD_SLEEP_MAX w)
          - now w <= 6000.
Proof. apply usleep_range_bounds. discriminate. Qed.

Lemma usleep_range_log (umin umax : Z) (w : world B) :
  io_log (usleep_range plat umin umax w)
  = io_log w ++ [IoUsleepRange umin umax (now (usleep_range plat umin umax w) - now w)].
Proof. unfold usleep_range; cbn [now io_log]. do 3 f_equal. lia. Qed.

Lemma some_triple_inv {X Y V : Type} (x x' : X) (y y' : Y) (v v' : V) :
  Some (x, y, v) = Some (x', y', v') -> x' = x /\ y' = y /\ v' = v.
Proof. now intros [= -> -> ->]. Qed.

Lemma last_event_snoc (l : list io_event) (e : io_event) :
  last_event (l ++ [e]) = Some e.
Proof. unfold last_event. now rewrite rev_app_distr. Qed.

Lemma clamp_val_bounds (v lo hi : Z) : lo <= hi -> lo <= clamp_val v lo hi <= hi.
Proof. unfold clamp_val; lia. Qed.

Lemma commands_sent_app (l1 l2 : list io_event) :
  commands_sent (l1 ++ l2) = commands_sent l1 ++ commands_sent l2.
Proof. apply flat_map_app. Qed.

Lemma commands_sent_retry (tries : list (Z * (byte * byte) * Z)) :
  commands_sent (retry_events tries) = [].
Proof.
  induction tries as [|[[r buf] s] tries IH]; [reflexivity|].
  cbn [retry_events flat_map app] in *. exact IH.
Qed.



Lemma si7020_timeout_cases (chan : iio_chan_spec) :
  si7020_timeout chan = 10800 /\ type chan = IIO_TEMP
  \/ si7020_timeout chan = 22800 /\ type chan <> IIO_TEMP.
Proof.
  unfold si7020_timeout. destruct (type chan); cbn; (left + right); split;
    (reflexivity || discriminate).
Qed.

(** ** The shape of a raw read *)

(** The Raw case of the switch. *)
Lemma si7020_read_raw_raw (fuel : nat) (indio_dev : iio_dev) (chan : iio_chan_spec)
    (o : outs) (w : world B) :
  si7020_read_raw cfg plat fuel indio_dev chan o IIO_CHAN_INFO_RAW w
  = if si7020_holdmode (iio_priv indio_dev) then
      let '(ret, w1) :=
        i2c_smbus_read_word_swapped plat
          (if iio_chan_type_eqb (type chan) IIO_TEMP
           then SI7020CMD_TEMP_HOLD else SI7020CMD_RH_HOLD) w in
      if ret <? 0 then Some (ret, o, w1)
      else si7020_raw_done chan (Z.shiftr ret 2) o w1
    else
      let '(ret, w1) :=
        i2c_smbus_write_byte plat
          (if iio_chan_type_eqb (type chan) IIO_TEMP
           then SI7020CMD_TEMP_NO_HOLD else SI7020CMD_RH_NO_HOLD) w in
      if ret <? 0 then Some (ret, o, w1)
      else
        match si7020_poll cfg plat fuel chan (jiffies cfg w1) w1 with
        | None => None
        | Some (ret, buf, w2) =>
            if ret <? 0 then Some (ret, o, w2)
            else si7020_raw_done chan
                   (Z.shiftr (Z.lor (Z.shiftl (byte_val (fst buf)) 8)
                                    (byte_val (snd buf))) 2) o w2
        end.
Proof. reflexivity. Qed.

(** The hold branch, with the transfer spelled out. *)
Lemma si7020_read_raw_hold (fuel : nat) (indio_dev : iio_dev) (chan : iio_chan_spec)
    (o : outs) (w : world B) :
  si7020_holdmode (iio_priv indio_dev) = true ->
  si7020_read_raw cfg plat fuel indio_dev chan o IIO_CHAN_INFO_RAW w
  = let got := i2c_smbus_read_word_swapped plat
                 (if iio_chan_type_eqb (type chan) IIO_TEMP then 0xE3 else 0xE5) w in
    if fst got <? 0 then Some (fst got, o, snd got)
    else si7020_raw_done chan (Z.shiftr (fst got) 2) o (snd got).
Proof.
  intros Hmode. rewrite si7020_read_raw_raw, Hmode.
  change (if iio_chan_type_eqb (type chan) IIO_TEMP
          then SI7020CMD_TEMP_HOLD else SI7020CMD_RH_HOLD)
    with (if iio_chan_type_eqb (type chan) IIO_TEMP then 0xE3 else 0xE5).
  now destruct (i2c_smbus_read_word_swapped plat _ w) as [ret w1].
Qed.

(** The no-hold branch, with the command write spelled out. *)
Lemma si7020_read_raw_nohold (fuel : nat) (indio_dev : iio_dev) (chan : iio_chan_spec)
    (o : outs) (w : world B) :
  si7020_holdmode (iio_priv indio_dev) = false ->
  si7020_read_raw cfg plat fuel indio_dev chan o IIO_CHAN_INFO_RAW w
  = let sent := i2c_smbus_write_byte plat
                  (if iio_chan_type_eqb (type chan) IIO_TEMP then 0xF3 else 0xF5) w in
    if fst sent <? 0 then Some (fst sent, o, snd sent)
    else
      match si7020_poll cfg plat fuel chan (jiffies_at cfg (now (snd sent))) (snd sent)
      with
      | None => None
      | Some (ret, buf, w2) =>
          if ret <? 0 then Some (ret, o, w2)
          else si7020_raw_done chan
                 (Z.shiftr (Z.lor (Z.shiftl (byte_val (fst buf)) 8)
                                  (byte_val (snd buf))) 2) o w2
      end.
Proof.
  intros Hmode. rewrite si7020_read_raw_raw, Hmode.
  change (if iio_chan_type_eqb (type chan) IIO_TEMP
          then SI7020CMD_TEMP_NO_HOLD else SI7020CMD_RH_NO_HOLD)
    with (if iio_chan_type_eqb (type chan) IIO_TEMP then 0xF3 else 0xF5).
  now destruct (i2c_smbus_write_byte plat _ w) as [ret w1].
Qed.

(** ** The polling loop *)

(** What a finished polling loop leaves in the log: the failed attempts, each
    followed by its sleep, then the read that ended the loop.  An error comes
    out only once the clock is past the deadline. *)
Lemma si7020_poll_trace (fuel : nat) (chan : iio_chan_spec) (start : Z) :
  forall (w : world B) (ret : Z) (buf : byte * byte) (w' : world B),
    si7020_poll cfg plat fuel chan start w = Some (ret, buf, w') ->
    exists tries : list (Z * (byte * byte) * Z),
      io_log w' = io_log w ++ retry_events tries
                           ++ [IoMasterRecv 2 ret (fst buf) (snd buf)]
      /\ Forall failed_try tries
      /\ (List.length tries < fuel)%nat
      /\ now w <= now w'
      /\ (ret < 0 ->
          time_after cfg (jiffies cfg w')
            (ulong cfg (start + usecs_to_jiffies cfg (si7020_timeout chan))) = true).
Proof.
  induction fuel as [|fuel IH]; intros w ret buf w' Hrun; [discriminate|].
  cbn [si7020_poll] in Hrun. rewrite master_recv_eq in Hrun.
  set (x := xfer_master_recv plat (now w) (bus w) 2) in *.
  set (w1 := {| now := now w + Z.of_N (snd x); bus := snd (fst x);
                io_log := io_log w ++ [IoMasterRecv 2 (fst (fst (fst x)))
                                         (fst (snd (fst (fst x))))
                                         (snd (snd (fst (fst x))))] |}) in *.
  destruct (fst (fst (fst x)) <? 0) eqn:Hneg.
  - destruct (time_after cfg (jiffies cfg w1) _) eqn:Hlate.
    + injection Hrun as <- <- <-. exists []. cbn [retry_events flat_map app].
      repeat split; auto; try (cbn; lia).
    + apply IH in Hrun as (tries & Hlog & Hall & Hlen & Hnow & Herr).
      exists ((fst (fst (fst x)), snd (fst (fst x)),
               now (usleep_range plat SI7020_NOHOLD_SLEEP_MIN
                      SI7020_NOHOLD_SLEEP_MAX w1) - now w1) :: tries).
      repeat split.
      * rewrite Hlog, usleep_range_log. cbn [io_log w1 retry_events flat_map fst snd].
        now rewrite <- !app_assoc.
      * constructor; [|exact Hall]. split; cbn [fst snd].
        -- now apply Z.ltb_lt.
        -- apply nohold_sleep_bounds.
      * cbn [List.length]; lia.
      * pose proof (nohold_sleep_bounds w1) as Hs.
        assert (now w <= now w1) by (unfold w1; cbn [now]; lia). lia.
      * exact Herr.
  - injection Hrun as <- <- <-. exists []. cbn [retry_events flat_map app].
    repeat split; auto; try (cbn; lia).
Qed.

(** Against a transport whose reads always fail, the loop ends in an error. *)
Lemma si7020_poll_fails (fuel : nat) (chan : iio_chan_spec) (start : Z) :
  recv_always_fails plat ->
  forall (w : world B) (ret : Z) (buf : byte * byte) (w' : world B),
    si7020_poll cfg plat fuel chan start w = Some (ret, buf, w') -> ret < 0.
Proof.
  intros Hfail. induction fuel as [|fuel IH]; intros w ret buf w'; [discriminate|].
  cbn [si7020_poll]. rewrite master_recv_eq.
  pose proof (Hfail (now w) (bus w)) as Hneg. apply Z.ltb_lt in Hneg.
  rewrite Hneg. destruct (time_after _ _ _).
  - intros [= <- _ _]. now apply Z.ltb_lt.
  - apply IH.
Qed.

(** ** The clock *)

Section Timing.
Hypothesis cfg_ok : config_ok cfg.

Local Abbreviation J := (tick_usec cfg).
Local Abbreviation M := (2 ^ BITS_PER_LONG cfg).
Local Abbreviation half := (2 ^ (BITS_PER_LONG cfg - 1)).

Lemma ulong_modulus : M = 2 * half /\ 2 ^ 31 <= half.
Proof.
  destruct cfg_ok as [_ Hbits]. split.
  - rewrite <- Z.pow_succ_r by lia. f_equal. lia.
  - apply Z.pow_le_mono_r; lia.
Qed.

(** The wrapped difference that [time_after] looks at is the deadline minus
    the ticks elapsed since the start. *)
Lemma time_after_difference (i n0 n1 T : Z) :
  ulong cfg (ulong cfg (ulong cfg (i + n0) + T) - ulong cfg (i + n1))
  = ulong cfg (T - (n1 - n0)).
Proof.
  unfold ulong.
  rewrite Zminus_mod_idemp_l, Zminus_mod_idemp_r.
  replace ((i + n0) mod M + T - (i + n1)) with ((i + n0) mod M + (T - (i + n1))) by lia.
  rewrite Zplus_mod_idemp_l. f_equal. lia.
Qed.

(** [time_after] never fires before the deadline, however the counter wraps. *)
Lemma time_after_sound (i n0 n1 T : Z) :
  0 <= T < half -> n0 <= n1 ->
  time_after cfg (ulong cfg (i + n1)) (ulong cfg (ulong cfg (i + n0) + T)) = true ->
  T < n1 - n0.
Proof.
  intros HT Hmono. unfold time_after. rewrite time_after_difference.
  destruct ulong_modulus as [HM Hhalf]. intros Hlate.
  destruct (Z.le_gt_cases (n1 - n0) T) as [Hle|Hgt]; [exfalso|exact Hgt].
  unfold ulong, slong in Hlate.
  rewrite Z.mod_small in Hlate by lia.
  destruct (T - (n1 - n0) <? half) eqn:Hcmp; lia.
Qed.

(** It fires once the deadline is passed by no more than half the range of
    the counter. *)
Lemma time_after_complete (i n0 n1 T : Z) :
  T < n1 - n0 -> n1 - n0 - T <= half ->
  time_after cfg (ulong cfg (i + n1)) (ulong cfg (ulong cfg (i + n0) + T)) = true.
Proof.
  intros Hgt Hnear. unfold time_after. rewrite time_after_difference.
  destruct ulong_modulus as [HM Hhalf].
  unfold ulong, slong.
  assert (Hmod : (T - (n1 - n0)) mod M = T - (n1 - n0) + M).
  { symmetry. apply Z.mod_unique with (q := -1); lia. }
  rewrite Hmod. destruct (T - (n1 - n0) + M <? half) eqn:Hcmp; lia.
Qed.

Lemma tick_floor (t : Z) : t - J < t / J * J <= t.
Proof.
  destruct cfg_ok as [HJ _].
  pose proof (Z.mul_div_le t J HJ). pose proof (Z.mul_succ_div_gt t J HJ). lia.
Qed.

Lemma usecs_to_jiffies_covers (u : Z) :
  u <= usecs_to_jiffies cfg u * J.
Proof.
  unfold usecs_to_jiffies.
  pose proof (tick_floor (u + J - 1)). lia.
Qed.

Lemma usecs_to_jiffies_small (u : Z) :
  1 <= u -> 0 <= usecs_to_jiffies cfg u <= u.
Proof.
  intros Hu. destruct cfg_ok as [HJ _].
  unfold usecs_to_jiffies. split.
  - apply Z.div_pos; lia.
  - apply Z.div_le_upper_bound; nia.
Qed.

Lemma si7020_timeout_ticks (chan : iio_chan_spec) :
  1 <= si7020_timeout chan <= 22800
  /\ 0 <= usecs_to_jiffies cfg (si7020_timeout chan) <= si7020_timeout chan.
Proof.
  assert (Htimeout : 1 <= si7020_timeout chan <= 22800)
    by (destruct (si7020_timeout_cases chan) as [[-> _]|[-> _]]; lia).
  split; [exact Htimeout|apply usecs_to_jiffies_small; lia].
Qed.

(** An error leaves the polling loop only after the type-specific timeout,
    counted from the instant [ts] at which [start] was sampled. *)
Lemma si7020_poll_error_is_late (fuel : nat) (chan : iio_chan_spec) (ts : Z)
    (w : world B) (ret : Z) (buf : byte * byte) (w' : world B) :
  si7020_poll cfg plat fuel chan (jiffies_at cfg ts) w = Some (ret, buf, w') ->
  ts <= now w -> ret < 0 ->
  si7020_timeout chan < now w' - ts.
Proof.
  intros Hrun Hts Hret.
  apply si7020_poll_trace in Hrun as (_ & _ & _ & _ & Hnow & Hlate).
  specialize (Hlate Hret). unfold jiffies, jiffies_at in Hlate.
  destruct ulong_modulus as [_ Hhalf]. destruct cfg_ok as [HJ _].
  destruct (si7020_timeout_ticks chan) as [Htimeout HT].
  apply time_after_sound in Hlate; [|lia|apply Z.div_le_mono; lia].
  pose proof (usecs_to_jiffies_covers (si7020_timeout chan)) as Hcover.
  pose proof (tick_floor ts) as Hf0. pose proof (tick_floor (now w')) as Hf1.
  nia.
Qed.

(** With transfers of bounded length the polling loop ends within its fuel,
    less than one tick, one sleep and one transfer after the deadline. *)
Lemma si7020_poll_returns (chan : iio_chan_spec) (D ts : Z) :
  recv_takes_at_most plat D -> D + 6001 <= half ->
  forall (fuel : nat) (w : world B),
    ts <= now w
    < (ts / J + usecs_to_jiffies cfg (si7020_timeout chan) + 1) * J + 6000 ->
    (ts / J + usecs_to_jiffies cfg (si7020_timeout chan) + 1) * J + 6000 - now w
    <= 2000 * Z.of_nat fuel ->
    exists ret buf w',
      si7020_poll cfg plat fuel chan (jiffies_at cfg ts) w = Some (ret, buf, w')
      /\ now w'
         < (ts / J + usecs_to_jiffies cfg (si7020_timeout chan) + 1) * J + 6000 + D.
Proof.
  intros Hdur Hwrap. destruct cfg_ok as [HJ _].
  set (Tj := usecs_to_jiffies cfg (si7020_timeout chan)).
  induction fuel as [|fuel IH]; intros w Hnow Hfuel; [lia|].
  cbn [si7020_poll]. rewrite master_recv_eq.
  pose proof (Hdur (now w) (bus w)) as Hd.
  set (x := xfer_master_recv plat (now w) (bus w) 2) in *.
  set (w1 := {| now := now w + Z.of_N (snd x); bus := snd (fst x);
                io_log := io_log w ++ [IoMasterRecv 2 (fst (fst (fst x)))
                                         (fst (snd (fst (fst x))))
                                         (snd (snd (fst (fst x))))] |}).
  assert (Hw1 : now w1 = now w + Z.of_N (snd x)) by reflexivity.
  destruct (fst (fst (fst x)) <? 0); [|do 3 eexists; split; [reflexivity|lia]].
  destruct (time_after cfg (jiffies cfg w1) _) eqn:Hlate;
    [do 3 eexists; split; [reflexivity|lia]|].
  assert (Hearly : now w1 / J <= ts / J + Tj).
  { destruct (Z.le_gt_cases (now w1 / J) (ts / J + Tj)) as [Hle|Hgt]; [exact Hle|].
    exfalso. unfold jiffies, jiffies_at in Hlate.
    rewrite time_after_complete in Hlate; [discriminate|lia|].
    pose proof (tick_floor (now w1)). nia. }
  pose proof (nohold_sleep_bounds w1) as Hsleep.
  pose proof (tick_floor (now w1)) as Hfloor.
  apply IH; nia.
Qed.

Lemma si7020_poll_fuel_enough (chan : iio_chan_spec) (fuel : nat) (ts : Z) :
  (si7020_poll_fuel cfg chan <= fuel)%nat ->
  (ts / J + usecs_to_jiffies cfg (si7020_timeout chan) + 1) * J + 6000 - ts
  <= 2000 * Z.of_nat fuel.
Proof.
  unfold si7020_poll_fuel, SI7020_NOHOLD_SLEEP_MAX, SI7020_NOHOLD_SLEEP_MIN.
  intros Hfuel. destruct cfg_ok as [HJ _].
  destruct (si7020_timeout_ticks chan) as [Htimeout HT].
  pose proof (tick_floor ts) as Hfloor.
  set (span := (usecs_to_jiffies cfg (si7020_timeout chan) + 1) * J + 6000) in *.
  assert (Hspan : 0 <= span) by (subst span; nia).
  pose proof (Z.mul_succ_div_gt span 2000 ltac:(lia)) as Hq.
  assert (Hq0 : 0 <= span / 2000) by (apply Z.div_pos; lia).
  lia.
Qed.

(** The polling loop as the no-hold branch starts it, right after the write
    at the instant [now w]: with transfers of bounded length and enough fuel
    it ends, within the bound on the clock. *)
Lemma si7020_poll_from_start (fuel : nat) (chan : iio_chan_spec) (D : Z) (w : world B) :
  recv_takes_at_most plat D -> D + 6001 <= half ->
  (si7020_poll_fuel cfg chan <= fuel)%nat ->
  exists ret buf w',
    si7020_poll cfg plat fuel chan (jiffies_at cfg (now w)) w = Some (ret, buf, w')
    /\ now w' - now w
       < (usecs_to_jiffies cfg (si7020_timeout chan) + 1) * J + 6000 + D.
Proof.
  intros Hdur Hwrap Hfuel.
  pose proof (tick_floor (now w)) as Hfloor. destruct cfg_ok as [HJ _].
  destruct (si7020_timeout_ticks chan) as [Htimeout HT].
  destruct (si7020_poll_returns chan D (now w) Hdur Hwrap fuel w)
    as (ret & buf & w' & Hpoll & Hbound);
    [nia|now apply si7020_poll_fuel_enough|].
  exists ret, buf, w'. split; [exact Hpoll|nia].
Qed.

(** A raw read returns: at once in hold mode, and in no-hold mode when the
    transfers are of bounded length and the fuel covers the timeout. *)
Lemma si7020_read_raw_returns (fuel : nat) (indio_dev : iio_dev)
    (chan : iio_chan_spec) (o : outs) (w : world B) (D : Z) :
  recv_takes_at_most plat D -> D + 6001 <= half ->
  (si7020_poll_fuel cfg chan <= fuel)%nat ->
  exists r, si7020_read_raw cfg plat fuel indio_dev chan o IIO_CHAN_INFO_RAW w = Some r.
Proof.
  intros Hdur Hwrap Hfuel. unfold si7020_raw_done.
  destruct (si7020_holdmode (iio_priv indio_dev)) eqn:Hmode.
  - rewrite si7020_read_raw_hold by exact Hmode. cbv zeta.
    unfold si7020_raw_done. destruct (_ <? 0); eauto.
  - rewrite si7020_read_raw_nohold by exact Hmode. cbv zeta.
    destruct (_ <? 0); [eauto|].
    destruct (si7020_poll_from_start fuel chan D
                (snd (i2c_smbus_write_byte plat
                        (if iio_chan_type_eqb (type chan) IIO_TEMP then 243 else 245)
                        w)) Hdur Hwrap Hfuel)
      as (ret & buf & w' & Hpoll & _).
    rewrite Hpoll. unfold si7020_raw_done. destruct (ret <? 0); eauto.
Qed.

End Timing.

(** ** What one read leaves in the log *)

(** The one command a raw read sends, whatever the transport answers. *)
Lemma si7020_read_raw_command (fuel : nat) (indio_dev : iio_dev)
    (chan : iio_chan_spec) (o : outs) (w : world B) :
  forall r, si7020_read_raw cfg plat fuel indio_dev chan o IIO_CHAN_INFO_RAW w = Some r ->
    exists evs, io_log (snd r) = io_log w ++ evs
      /\ commands_sent evs =
         [if si7020_holdmode (iio_priv indio_dev)
          then (if iio_chan_type_eqb (type chan) IIO_TEMP
                then SI7020CMD_TEMP_HOLD else SI7020CMD_RH_HOLD)
          else (if iio_chan_type_eqb (type chan) IIO_TEMP
                then SI7020CMD_TEMP_NO_HOLD else SI7020CMD_RH_NO_HOLD)].
Proof.
  intros r. rewrite si7020_read_raw_raw. unfold si7020_raw_done.
  destruct (si7020_holdmode (iio_priv indio_dev)).
  - rewrite read_word_swapped_eq.
    destruct (_ <? 0); intros [= <-]; cbn [snd io_log]; eexists; split;
      reflexivity.
  - rewrite write_byte_eq.
    destruct (_ <? 0); [intros [= <-]; cbn [snd io_log]; eexists; split; reflexivity|].
    destruct (si7020_poll _ _ _ _ _ _) as [[[ret buf] w2]|] eqn:Hpoll; [|discriminate].
    apply si7020_poll_trace in Hpoll as (tries & Hlog & _).
    cbn [io_log] in Hlog.
    assert (Hw2 : exists evs, io_log w2 = io_log w ++ evs
                   /\ commands_sent evs =
                      [if iio_chan_type_eqb (type chan) IIO_TEMP
                       then SI7020CMD_TEMP_NO_HOLD else SI7020CMD_RH_NO_HOLD]).
    { eexists. split; [rewrite Hlog, <- !app_assoc; reflexivity|].
      rewrite !commands_sent_app, commands_sent_retry. reflexivity. }
    destruct (ret <? 0); intros [= <-]; exact Hw2.
Qed.


(** A successful raw read of the Humidity channel is within the clamp. *)
Lemma si7020_humidity_range (fuel : nat) (indio_dev : iio_dev) (chan : iio_chan_spec)
    (o : outs) (w : world B) (ret : Z) (o' : outs) (w' : world B) :
  type chan = IIO_HUMIDITYRELATIVE ->
  si7020_read_raw cfg plat fuel indio_dev chan o IIO_CHAN_INFO_RAW w
  = Some (ret, o', w') ->
  0 <= ret ->
  786 <= val o' <= 13893.
Proof.
  intros Htype. rewrite si7020_read_raw_raw. unfold si7020_raw_done.
  rewrite Htype. cbv beta iota delta [iio_chan_type_eqb].
  destruct (si7020_holdmode (iio_priv indio_dev)).
  - rewrite read_word_swapped_eq.
    destruct (_ <? 0) eqn:Hneg; intros [= <- <- <-] Hret.
    + apply Z.ltb_lt in Hneg. lia.
    + now apply clamp_val_bounds.
  - rewrite write_byte_eq.
    destruct (_ <? 0) eqn:Hneg.
    { intros [= <- <- <-] Hret. apply Z.ltb_lt in Hneg. lia. }
    destruct (si7020_poll _ _ _ _ _ _) as [[[r buf] w2]|]; [|discriminate].
    destruct (r <? 0) eqn:Hr; intros [= <- <- <-] Hret.
    + apply Z.ltb_lt in Hr. lia.
    + now apply clamp_val_bounds.
Qed.

(** ** The probe *)


(** The probe either refuses the adapter before any transfer or goes on to
    reset the device. *)
Lemma si7020_probe_cases (client : i2c_client) (w : world B) :
  si7020_probe plat client w = (- ENODEV, None, w)
  \/ si7020_probe plat client w = si7020_probe_device plat client w.
Proof.
  unfold si7020_probe.
  destruct (negb (i2c_check_functionality _ _)); [now left|].
  destruct (dev_get_platdata client) as [pdata|].
  - destruct (blocking_io pdata).
    + destruct (i2c_check_quirks _ _); [now left|now right].
    + destruct (negb (i2c_check_functionality _ _)); [now left|now right].
  - destruct (negb (i2c_check_functionality _ _) && i2c_check_quirks _ _);
      [now left|now right].
Qed.

End ReadRawFacts.

(** ** The calibration line of the Humidity channel *)

Lemma processed_humidity (r : Z) :
  (processed_value r (-786) 125000 16384
   == inject_Z ((r - 786) * 125000) / inject_Z 16384)%Q.
Proof.
  unfold processed_value, Qeq, Qdiv, Qmult, Qinv, inject_Z.
  cbn [Qnum Qden Z.mul Pos.mul]. lia.
Qed.

Lemma processed_humidity_range (r : Z) :
  786 <= r <= 13893 ->
  (0 <= processed_value r (-786) 125000 16384 <= 100000)%Q.
Proof.
  intros Hr. unfold processed_value, Qle, Qdiv, Qmult, Qinv, inject_Z.
  cbn [Qnum Qden Z.mul Pos.mul]. lia.
Qed.

Import Mock.

Lemma hz1000_ok : config_ok hz1000.
Proof. split; [reflexivity|discriminate]. Defined.

Lemma hz100_ok : config_ok hz100.
Proof. split; [reflexivity|discriminate]. Defined.

(** ** The polling loop against the clock *)

Section PollBudget.
Context {B : Type}.
Variable cfg : kernel_config.
Variable plat : platform B.

Lemma reads_attempted_app (l l' : list io_event) :
  reads_attempted (l ++ l') = reads_attempted l + reads_attempted l'.
Proof.
  unfold reads_attempted. rewrite filter_app, length_app. lia.
Qed.

(** The deadline test does not see the value of [jiffies] at boot: the
    wrapped difference it looks at is the same. *)
Lemma time_after_any_boot (j ts t T : Z) :
  time_after (with_initial_jiffies cfg j)
    (jiffies_at (with_initial_jiffies cfg j) t)
    (ulong (with_initial_jiffies cfg j)
       (jiffies_at (with_initial_jiffies cfg j) ts + T))
  = time_after cfg (jiffies_at cfg t) (ulong cfg (jiffies_at cfg ts + T)).
Proof.
  unfold time_after, jiffies_at. rewrite !time_after_difference. reflexivity.
Qed.

Lemma si7020_poll_any_boot (j : Z) (chan : iio_chan_spec) (ts : Z) :
  forall (fuel : nat) (w : world B),
    si7020_poll (with_initial_jiffies cfg j) plat fuel chan
      (jiffies_at (with_initial_jiffies cfg j) ts) w
    = si7020_poll cfg plat fuel chan (jiffies_at cfg ts) w.
Proof.
  induction fuel as [|fuel IH]; intros w; [reflexivity|].
  cbn [si7020_poll]. rewrite master_recv_eq.
  destruct (_ <? 0); [|reflexivity].
  unfold jiffies.
  change (usecs_to_jiffies (with_initial_jiffies cfg j) (si7020_timeout chan))
    with (usecs_to_jiffies cfg (si7020_timeout chan)).
  rewrite time_after_any_boot.
  destruct (time_after cfg _ _); [reflexivity|apply IH].
Qed.

Hypothesis cfg_ok : config_ok cfg.

(** A polling loop entered before its last possible pass: it returns no
    later than one transfer after that pass, and every read but the last
    costs it 2000 microseconds at least. *)
Lemma si7020_poll_budget (chan : iio_chan_spec) (D ts : Z) :
  recv_takes_at_most plat D -> D + 6001 <= 2 ^ (BITS_PER_LONG cfg - 1) ->
  forall (fuel : nat) (w : world B) (ret : Z) (buf : byte * byte) (w' : world B),
    ts <= now w
    < (ts / tick_usec cfg + usecs_to_jiffies cfg (si7020_timeout chan) + 1)
      * tick_usec cfg + 6000 ->
    si7020_poll cfg plat fuel chan (jiffies_at cfg ts) w = Some (ret, buf, w') ->
    now w'
    < (ts / tick_usec cfg + usecs_to_jiffies cfg (si7020_timeout chan) + 1)
      * tick_usec cfg + 6000 + D
    /\ now w + 2000 * (reads_attempted (io_log w') - reads_attempted (io_log w) - 1)
       < (ts / tick_usec cfg + usecs_to_jiffies cfg (si7020_timeout chan) + 1)
         * tick_usec cfg + 6000.
Proof.
  intros Hdur Hwrap. destruct cfg_ok as [HJ _].
  set (Tj := usecs_to_jiffies cfg (si7020_timeout chan)).
  induction fuel as [|fuel IH]; intros w ret buf w' Hnow; [discriminate|].
  cbn [si7020_poll]. rewrite master_recv_eq.
  pose proof (Hdur (now w) (bus w)) as Hd.
  set (x := xfer_master_recv plat (now w) (bus w) 2) in *.
  set (w1 := {| now := now w + Z.of_N (snd x); bus := snd (fst x);
                io_log := io_log w ++ [IoMasterRecv 2 (fst (fst (fst x)))
                                         (fst (snd (fst (fst x))))
                                         (snd (snd (fst (fst x))))] |}).
  assert (Hw1 : now w1 = now w + Z.of_N (snd x)) by reflexivity.
  assert (Hc1 : reads_attempted (io_log w1) = reads_attempted (io_log w) + 1)
    by (unfold w1; cbn [io_log]; now rewrite reads_attempted_app).
  destruct (fst (fst (fst x)) <? 0).
  2:{ intros Heq. apply some_triple_inv in Heq as (-> & -> & ->). lia. }
  destruct (time_after cfg (jiffies cfg w1) _) eqn:Hlate.
  { intros Heq. apply some_triple_inv in Heq as (-> & -> & ->). lia. }
  assert (Hearly : now w1 / tick_usec cfg <= ts / tick_usec cfg + Tj).
  { destruct (Z.le_gt_cases (now w1 / tick_usec cfg) (ts / tick_usec cfg + Tj))
      as [Hle|Hgt]; [exact Hle|].
    exfalso. unfold jiffies, jiffies_at in Hlate.
    rewrite (time_after_complete cfg cfg_ok) in Hlate; [discriminate|lia|].
    pose proof (tick_floor cfg cfg_ok (now w1)).
    pose proof (tick_floor cfg cfg_ok ts). nia. }
  pose proof (nohold_sleep_bounds plat w1) as Hsleep.
  pose proof (tick_floor cfg cfg_ok (now w1)) as Hfloor.
  set (w2 := usleep_range plat SI7020_NOHOLD_SLEEP_MIN SI7020_NOHOLD_SLEEP_MAX w1) in *.
  assert (Hc2 : reads_attempted (io_log w2) = reads_attempted (io_log w) + 1).
  { unfold w2. rewrite usleep_range_log, reads_attempted_app, Hc1.
    cbn [reads_attempted filter is_recv List.length Z.of_nat]. lia. }
  intros Hrun. apply IH in Hrun; [|nia]. rewrite Hc2 in Hrun. lia.
Qed.


End PollBudget.

(** ** The probe and the reads, case by case *)

(** Lines 168 to 185 as one test: the probe goes on to the reset exactly
    when the adapter has the two SMBus commands and passes the check of the
    branch the platform data selects; otherwise it returns -ENODEV at once. *)
Lemma si7020_probe_accepts {B : Type} (plat : platform B) (client : i2c_client)
    (w : world B) :
  si7020_probe plat client w
  = if i2c_check_functionality (adapter client)
         (Z.lor I2C_FUNC_SMBUS_WRITE_BYTE I2C_FUNC_SMBUS_READ_WORD_DATA)
       && match dev_get_platdata client with
          | Some pdata =>
              if blocking_io pdata
              then negb (i2c_check_quirks (adapter client) I2C_AQ_NO_CLK_STRETCH)
              else i2c_check_functionality (adapter client) I2C_FUNC_I2C
          | None =>
              negb (negb (i2c_check_functionality (adapter client) I2C_FUNC_I2C)
                    && i2c_check_quirks (adapter client) I2C_AQ_NO_CLK_STRETCH)
          end
    then si7020_probe_device plat client w
    else (- ENODEV, None, w).
Proof.
  unfold si7020_probe.
  destruct (i2c_check_functionality _ (Z.lor _ _)); cbn [negb andb]; [|reflexivity].
  destruct (dev_get_platdata client) as [pdata|].
  - destruct (blocking_io pdata).
    + now destruct (i2c_check_quirks _ _).
    + now destruct (i2c_check_functionality _ I2C_FUNC_I2C).
  - now destruct (negb (i2c_check_functionality _ I2C_FUNC_I2C) && i2c_check_quirks _ _).
Qed.

(** What the reset and the steps after it leave in the log. *)
Lemma si7020_probe_device_log {B : Type} (plat : platform B) (client : i2c_client)
    (w : world B) :
  exists evs : list io_event,
    io_log (snd (si7020_probe_device plat client w))
    = io_log w
      ++ IoWriteByte 0xFE (fst (fst (xfer_write_byte plat (now w) (bus w) 0xFE))) :: evs
    /\ commands_sent evs = []
    /\ (fst (fst (xfer_write_byte plat (now w) (bus w) 0xFE)) < 0 ->
        fst (si7020_probe_device plat client w)
        = (fst (fst (xfer_write_byte plat (now w) (bus w) 0xFE)), None)
        /\ evs = []).
Proof.
  unfold si7020_probe_device. rewrite write_byte_eq.
  change SI7020CMD_RESET with 0xFE.
  set (x := xfer_write_byte plat (now w) (bus w) 0xFE).
  destruct (fst (fst x) <? 0) eqn:Hneg.
  - exists []. cbn [snd fst io_log]. repeat split; reflexivity.
  - exists [IoMsleep 15].
    apply Z.ltb_ge in Hneg.
    destruct (negb (iio_device_alloc_ok plat _));
      cbn [snd fst io_log msleep]; rewrite <- app_assoc;
      repeat split; try reflexivity; lia.
Qed.


(** * The claims of the specification *)

(** ** The clamp on humidity *)



(** ** Hold mode *)

(** C2.  A raw read of the Temperature channel in hold mode sends
    SI7020CMD_TEMP_HOLD in one combined transaction.  When the transport
    answers the word [W], the read returns IIO_VAL_INT with [*val = W >> 2],
    unclamped (0x9234 gives 9357); when it answers an error, that very
    number is returned and the out-parameters are left alone. *)
Theorem hold_temperature_is_word_shifted {B : Type} (cfg : kernel_config)
    (plat : platform B) (fuel : nat) (indio_dev : iio_dev) (chan : iio_chan_spec)
    (o : outs) (w : world B) (W : Z) (b' : B) (d : N) :
  type chan = IIO_TEMP ->
  si7020_holdmode (iio_priv indio_dev) = true ->
  xfer_read_word_swapped plat (now w) (bus w) SI7020CMD_TEMP_HOLD = (W, b', d) ->
  let w' := {| now := now w + Z.of_N d; bus := b';
               io_log := io_log w ++ [IoReadWordSwapped 0xE3 W] |} in
  (0 <= W ->
   si7020_read_raw cfg plat fuel indio_dev chan o IIO_CHAN_INFO_RAW w
   = Some (IIO_VAL_INT, {| val := Z.shiftr W 2; val2 := val2 o |}, w'))
  /\ (W = 0x9234 ->
      si7020_read_raw cfg plat fuel indio_dev chan o IIO_CHAN_INFO_RAW w
      = Some (IIO_VAL_INT, {| val := 9357; val2 := val2 o |}, w'))
  /\ (W < 0 ->
      si7020_read_raw cfg plat fuel indio_dev chan o IIO_CHAN_INFO_RAW w
      = Some (W, o, w')).
Proof.
  intros Htype Hhold Hxfer w'.
  assert (Hrun : si7020_read_raw cfg plat fuel indio_dev chan o IIO_CHAN_INFO_RAW w
                 = if W <? 0 then Some (W, o, w')
                   else Some (IIO_VAL_INT, {| val := Z.shiftr W 2; val2 := val2 o |}, w')).
  { rewrite si7020_read_raw_raw, Hhold, Htype.
    cbv beta iota delta [iio_chan_type_eqb].
    unfold i2c_smbus_read_word_swapped. rewrite Hxfer.
    unfold si7020_raw_done. rewrite Htype. reflexivity. }
  rewrite Hrun. repeat split.
  - intros HW. apply Z.ltb_ge in HW. now rewrite HW.
  - intros ->. reflexivity.
  - intros HW. apply Z.ltb_lt in HW. now rewrite HW.
Qed.

(** The scenario of the word 0x9234; and the word 2000, whose sample of 500
    lies below the clamp of the Humidity channel, comes back as it is. *)
Lemma hold_temperature_is_word_shifted_witness :
  type temperature = IIO_TEMP
  /\ si7020_holdmode (iio_priv (device_of (client_on stretching_adapter None))) = true
  /\ xfer_read_word_swapped (transport holds_9234) (now boot) (bus boot)
       SI7020CMD_TEMP_HOLD = (0x9234, O, 12000%N)
  /\ si7020_read_raw hz1000 (transport holds_9234) 0
       (device_of (client_on stretching_adapter None)) temperature out0
       IIO_CHAN_INFO_RAW boot
     = Some (IIO_VAL_INT, {| val := 9357; val2 := 0 |},
             {| now := 12000; bus := O; io_log := [IoReadWordSwapped 0xE3 0x9234] |})
  /\ xfer_read_word_swapped (transport holds_2000) (now boot) (bus boot)
       SI7020CMD_TEMP_HOLD = (2000, O, 12000%N)
  /\ si7020_read_raw hz1000 (transport holds_2000) 0
       (device_of (client_on stretching_adapter None)) temperature out0
       IIO_CHAN_INFO_RAW boot
     = Some (IIO_VAL_INT, {| val := 500; val2 := 0 |},
             {| now := 12000; bus := O; io_log := [IoReadWordSwapped 0xE3 2000] |}).
Proof.
  split; [reflexivity|]. split; [reflexivity|]. split; [reflexivity|].
  split; [|split; [reflexivity|]].
  - destruct (hold_temperature_is_word_shifted hz1000 (transport holds_9234) 0
                (device_of (client_on stretching_adapter None)) temperature out0 boot
                0x9234 O 12000%N eq_refl eq_refl eq_refl) as [_ [H _]].
    exact (H eq_refl).
  - destruct (hold_temperature_is_word_shifted hz1000 (transport holds_2000) 0
                (device_of (client_on stretching_adapter None)) temperature out0 boot
                2000 O 12000%N eq_refl eq_refl eq_refl) as [H _].
    exact (H ltac:(discriminate)).
Defined.

(** ** Queries that do not touch the device *)

(** C3.  The Scale and Offset queries return the world they were given, with
    its clock, bus state and log untouched, and exact constants: Scale is
    tagged fractional, 175.72 * 1000 over 65536 >> 2 for Temperature and
    125 * 1000 over 65536 >> 2 for Humidity; Offset is a plain integer, -4368
    for Temperature and -786 for Humidity, and leaves [*val2] alone. *)
Theorem scale_offset_are_constants {B : Type} (cfg : kernel_config)
    (plat : platform B) (fuel : nat) (indio_dev : iio_dev) (m : Z) (o : outs)
    (w : world B) :
  let temp := {| type := IIO_TEMP; info_mask_separate := m |} in
  let rh := {| type := IIO_HUMIDITYRELATIVE; info_mask_separate := m |} in
  si7020_read_raw cfg plat fuel indio_dev temp o IIO_CHAN_INFO_SCALE w
  = Some (IIO_VAL_FRACTIONAL, {| val := 175720; val2 := 16384 |}, w)
  /\ si7020_read_raw cfg plat fuel indio_dev rh o IIO_CHAN_INFO_SCALE w
     = Some (IIO_VAL_FRACTIONAL, {| val := 125000; val2 := 16384 |}, w)
  /\ si7020_read_raw cfg plat fuel indio_dev temp o IIO_CHAN_INFO_OFFSET w
     = Some (IIO_VAL_INT, {| val := -4368; val2 := val2 o |}, w)
  /\ si7020_read_raw cfg plat fuel indio_dev rh o IIO_CHAN_INFO_OFFSET w
     = Some (IIO_VAL_INT, {| val := -786; val2 := val2 o |}, w)
  /\ (inject_Z 175720 == 175.72 * 1000)%Q
  /\ (inject_Z 125000 == 125 * 1000)%Q
  /\ 16384 = Z.shiftr 65536 2.
Proof.
  intros temp rh. repeat split; reflexivity.
Qed.

(** ** No-hold mode *)



(** C5, amended.  When every two-byte read fails and none takes longer than
    [D] microseconds, where D + 6000 < 2 ^ (BITS_PER_LONG - 1) so that no
    transfer followed by a sleep outlasts half the range of the tick counter,
    a raw read in no-hold mode whose command write succeeded returns the
    error of its last read, unmodified and with the out-parameters untouched.
    It returns later than the type-specific timeout (22800 microseconds for
    Humidity, 10800 for Temperature) after the write, and earlier than the
    timeout rounded up to whole ticks, plus one tick, one sleep of 6000
    microseconds and one transfer of [D] microseconds. *)
Theorem nohold_timeout_is_bounded {B : Type} (cfg : kernel_config)
    (plat : platform B) (fuel : nat) (indio_dev : iio_dev) (chan : iio_chan_spec)
    (o : outs) (w : world B) (D : Z) :
  config_ok cfg ->
  si7020_holdmode (iio_priv indio_dev) = false ->
  recv_always_fails plat ->
  recv_takes_at_most plat D ->
  D + SI7020_NOHOLD_SLEEP_MAX < 2 ^ (BITS_PER_LONG cfg - 1) ->
  (si7020_poll_fuel cfg chan <= fuel)%nat ->
  let opcode := if iio_chan_type_eqb (type chan) IIO_TEMP then 0xF3 else 0xF5 in
  let started := snd (i2c_smbus_write_byte plat opcode w) in
  0 <= fst (i2c_smbus_write_byte plat opcode w) ->
  exists (err : Z) (buf : byte * byte) (w' : world B),
    si7020_read_raw cfg plat fuel indio_dev chan o IIO_CHAN_INFO_RAW w
    = Some (err, o, w')
    /\ err < 0
    /\ last_event (io_log w') = Some (IoMasterRecv 2 err (fst buf) (snd buf))
    /\ si7020_timeout chan < now w' - now started
    /\ now w' - now started
       < (usecs_to_jiffies cfg (si7020_timeout chan) + 1) * tick_usec cfg
         + 6000 + D
    /\ (type chan = IIO_HUMIDITYRELATIVE -> si7020_timeout chan = 22800)
    /\ (type chan = IIO_TEMP -> si7020_timeout chan = 10800).
Proof.
  intros Hcfg Hmode Hfail Hdur Hwrap Hfuel opcode started Hwr.
  assert (Hwrap' : D + 6001 <= 2 ^ (BITS_PER_LONG cfg - 1))
    by (unfold SI7020_NOHOLD_SLEEP_MAX in Hwrap; lia).
  rewrite (si7020_read_raw_nohold cfg plat fuel indio_dev chan o w Hmode).
  cbv zeta. fold opcode. fold started.
  apply Z.ltb_ge in Hwr. rewrite Hwr.
  destruct (si7020_poll_from_start cfg plat Hcfg fuel chan D started Hdur Hwrap' Hfuel)
    as (ret & buf & w' & Hpoll & Hbound).
  rewrite Hpoll.
  pose proof (si7020_poll_fails cfg plat fuel chan _ Hfail _ _ _ _ Hpoll) as Hret.
  pose proof Hret as Hneg. apply Z.ltb_lt in Hneg. rewrite Hneg.
  exists ret, buf, w'. repeat apply conj.
  - reflexivity.
  - exact Hret.
  - pose proof (si7020_poll_trace _ _ _ _ _ _ _ _ _ Hpoll) as (tries & Hlog & _).
    rewrite Hlog, !app_assoc. apply last_event_snoc.
  - apply (si7020_poll_error_is_late cfg plat Hcfg _ _ _ _ _ _ _ Hpoll);
      [lia|exact Hret].
  - exact Hbound.
  - unfold si7020_timeout. now intros ->.
  - unfold si7020_timeout. now intros ->.
Qed.

(** A device that never answers, on a bus whose transfers take 300
    microseconds, read at HZ=100 while [jiffies] wraps around. *)
Lemma nohold_timeout_is_bounded_witness :
  config_ok hz100
  /\ si7020_holdmode (iio_priv (device_of (client_on no_stretch_adapter None))) = false
  /\ recv_always_fails (transport never_ready_slow)
  /\ recv_takes_at_most (transport never_ready_slow) 300
  /\ 300 + SI7020_NOHOLD_SLEEP_MAX < 2 ^ (BITS_PER_LONG hz100 - 1)
  /\ (si7020_poll_fuel hz100 temperature <= 20)%nat
  /\ 0 <= fst (i2c_smbus_write_byte (transport never_ready_slow) 0xF3 before_wrap)
  /\ exists (w' : world nat),
       si7020_read_raw hz100 (transport never_ready_slow) 20
         (device_of (client_on no_stretch_adapter None)) temperature out0
         IIO_CHAN_INFO_RAW before_wrap = Some (- ENXIO, out0, w')
       /\ 10800 < now w' - 299990300 < 36300.
Proof.
  assert (Hfail : recv_always_fails (transport never_ready_slow))
    by (intros t b; reflexivity).
  assert (Hdur : recv_takes_at_most (transport never_ready_slow) 300)
    by (intros t b; discriminate).
  assert (Hwrap : 300 + SI7020_NOHOLD_SLEEP_MAX < 2 ^ (BITS_PER_LONG hz100 - 1))
    by reflexivity.
  assert (Hfuel : (si7020_poll_fuel hz100 temperature <= 20)%nat)
    by (apply Nat.leb_le; reflexivity).
  assert (Hwr : 0 <= fst (i2c_smbus_write_byte (transport never_ready_slow) 0xF3
                            before_wrap)) by discriminate.
  split; [exact hz100_ok|]. split; [reflexivity|]. split; [exact Hfail|].
  split; [exact Hdur|]. split; [exact Hwrap|]. split; [exact Hfuel|].
  split; [exact Hwr|].
  destruct (nohold_timeout_is_bounded hz100 (transport never_ready_slow) 20
              (device_of (client_on no_stretch_adapter None)) temperature out0
              before_wrap 300 hz100_ok eq_refl Hfail Hdur Hwrap Hfuel Hwr)
    as (err & buf & w' & Hrun & _ & _ & Hlate & Hsoon & _).
  exists w'. split.
  - rewrite Hrun. vm_compute in Hrun. now injection Hrun as <- _.
  - split; [exact Hlate|exact Hsoon].
Defined.

(** C5 as the specification words it.  At HZ=1000 and at HZ=100, with
    transfers that take no time and sleeps within the bounds, a Humidity
    read against a device that never answers returns 29999 and 41999
    microseconds after the write: later than the timeout plus one sleep,
    28800. *)
Lemma nohold_timeout_overshoots :
  config_ok hz1000 /\ config_ok hz100
  /\ si7020_holdmode (iio_priv (device_of (client_on no_stretch_adapter None))) = false
  /\ recv_always_fails (transport never_ready)
  /\ recv_takes_at_most (transport never_ready) 0
  /\ (forall (t : Z) (n : nat), 2000 <= sched_usleep (transport never_ready) t n <= 6000)
  /\ i2c_smbus_write_byte (transport never_ready) SI7020CMD_RH_NO_HOLD boot
     = (0, {| now := 0; bus := O; io_log := [IoWriteByte 0xF5 0] |})
  /\ si7020_read_raw hz1000 (transport never_ready) 16
       (device_of (client_on no_stretch_adapter None)) humidity out0
       IIO_CHAN_INFO_RAW boot
     = Some (- ENXIO, out0,
             {| now := 29999; bus := 6%nat;
                io_log := [IoWriteByte 0xF5 0;
                           IoMasterRecv 2 (- ENXIO) x00 x00;
                           IoUsleepRange 2000 6000 6000;
                           IoMasterRecv 2 (- ENXIO) x00 x00;
                           IoUsleepRange 2000 6000 6000;
                           IoMasterRecv 2 (- ENXIO) x00 x00;
                           IoUsleepRange 2000 6000 6000;
                           IoMasterRecv 2 (- ENXIO) x00 x00;
                           IoUsleepRange 2000 6000 5999;
                           IoMasterRecv 2 (- ENXIO) x00 x00;
                           IoUsleepRange 2000 6000 6000;
                           IoMasterRecv 2 (- ENXIO) x00 x00] |})
  /\ SI7020_RH_TIMEOUT + SI7020_NOHOLD_SLEEP_MAX < 29999 - 0
  /\ exists w' : world nat,
       si7020_read_raw hz100 (transport never_ready) 24
         (device_of (client_on no_stretch_adapter None)) humidity out0
         IIO_CHAN_INFO_RAW boot = Some (- ENXIO, out0, w')
       /\ now w' = 41999
       /\ SI7020_RH_TIMEOUT + SI7020_NOHOLD_SLEEP_MAX < 41999 - 0.
Proof.
  split; [exact hz1000_ok|]. split; [exact hz100_ok|]. split; [reflexivity|].
  split; [intros t b; reflexivity|]. split; [intros t b; discriminate|].
  split.
  { intros t n. cbn [sched_usleep transport never_ready sleep_usec].
    destruct (t =? 18000); lia. }
  split; [reflexivity|]. split; [reflexivity|]. split; [reflexivity|].
  eexists. split; [reflexivity|]. split; reflexivity.
Qed.

(** ** Capability negotiation *)

(** C6, amended.  The probe refuses, with -ENODEV and before any transfer,
    every adapter that lacks SMBus write-byte or read-word-data; an override
    asking for blocking I/O on an adapter that cannot stretch the clock; and
    an override asking for polling on an adapter without plain I2C transfers.
    With no override and the SMBus commands present, it goes on to reset the
    device, and the mode of the reads is hold when the adapter stretches the
    clock and no-hold when it does not but offers plain I2C transfers; it
    refuses an adapter that offers neither.  An override the adapter supports
    is followed. *)
Theorem probe_negotiates_mode {B : Type} (plat : platform B) (client : i2c_client)
    (w : world B) :
  let smbus :=
    i2c_check_functionality (adapter client)
      (Z.lor I2C_FUNC_SMBUS_WRITE_BYTE I2C_FUNC_SMBUS_READ_WORD_DATA) in
  let raw_io := i2c_check_functionality (adapter client) I2C_FUNC_I2C in
  let no_stretch := i2c_check_quirks (adapter client) I2C_AQ_NO_CLK_STRETCH in
  let refused := si7020_probe plat client w = (- ENODEV, None, w) in
  let accepted (mode : bool) :=
    si7020_probe plat client w = si7020_probe_device plat client w
    /\ si7020_holdmode client = mode in
  (smbus = false -> refused)
  /\ (dev_get_platdata client = Some {| blocking_io := true |} ->
      no_stretch = true -> refused)
  /\ (dev_get_platdata client = Some {| blocking_io := false |} ->
      raw_io = false -> refused)
  /\ (smbus = true -> dev_get_platdata client = None ->
      no_stretch = false -> accepted true)
  /\ (smbus = true -> dev_get_platdata client = None ->
      no_stretch = true -> raw_io = true -> accepted false)
  /\ (dev_get_platdata client = None ->
      no_stretch = true -> raw_io = false -> refused)
  /\ (smbus = true -> dev_get_platdata client = Some {| blocking_io := true |} ->
      no_stretch = false -> accepted true)
  /\ (smbus = true -> dev_get_platdata client = Some {| blocking_io := false |} ->
      raw_io = true -> accepted false).
Proof.
  intros smbus raw_io no_stretch refused accepted.
  subst refused accepted. cbv beta.
  unfold si7020_probe, si7020_holdmode. fold smbus raw_io no_stretch.
  clearbody smbus raw_io no_stretch.
  generalize (si7020_probe_device plat client w) as go.
  generalize (dev_get_platdata client) as pdata.
  intros pdata go.
  repeat apply conj; destruct smbus, raw_io, no_stretch; intros;
    try discriminate; subst; cbn [negb andb blocking_io]; auto.
Qed.

(** The negotiation on three adapters: one that stretches the clock, one
    that does not, and the latter with an override asking for blocking I/O. *)
Lemma probe_negotiates_mode_witness :
  (si7020_probe (transport holds_9234) (client_on stretching_adapter None) boot
   = si7020_probe_device (transport holds_9234) (client_on stretching_adapter None) boot
   /\ si7020_holdmode (client_on stretching_adapter None) = true)
  /\ (si7020_probe (transport holds_9234) (client_on no_stretch_adapter None) boot
      = si7020_probe_device (transport holds_9234)
          (client_on no_stretch_adapter None) boot
      /\ si7020_holdmode (client_on no_stretch_adapter None) = false)
  /\ si7020_probe (transport holds_9234)
       (client_on no_stretch_adapter (Some {| blocking_io := true |})) boot
     = (- ENODEV, None, boot).
Proof.
  split; [|split].
  - destruct (probe_negotiates_mode (transport holds_9234)
                (client_on stretching_adapter None) boot) as (_ & _ & _ & H & _).
    exact (H eq_refl eq_refl eq_refl).
  - destruct (probe_negotiates_mode (transport holds_9234)
                (client_on no_stretch_adapter None) boot) as (_ & _ & _ & _ & H & _).
    exact (H eq_refl eq_refl eq_refl eq_refl).
  - destruct (probe_negotiates_mode (transport holds_9234)
                (client_on no_stretch_adapter (Some {| blocking_io := true |})) boot)
      as (_ & H & _).
    exact (H eq_refl eq_refl).
Defined.

(** C6 as the specification words it.  With no override, an adapter that
    stretches the clock but lacks the SMBus commands is refused although hold
    mode is what its reads would use, and so is one that cannot stretch the
    clock and offers plain I2C transfers only. *)
Lemma probe_refuses_adapter_without_smbus :
  dev_get_platdata (client_on i2c_only_adapter None) = None
  /\ i2c_check_quirks i2c_only_adapter I2C_AQ_NO_CLK_STRETCH = false
  /\ si7020_holdmode (client_on i2c_only_adapter None) = true
  /\ si7020_probe (transport holds_9234) (client_on i2c_only_adapter None) boot
     = (- ENODEV, None, boot)
  /\ dev_get_platdata (client_on i2c_only_no_stretch_adapter None) = None
  /\ i2c_check_quirks i2c_only_no_stretch_adapter I2C_AQ_NO_CLK_STRETCH = true
  /\ i2c_check_functionality i2c_only_no_stretch_adapter I2C_FUNC_I2C = true
  /\ si7020_holdmode (client_on i2c_only_no_stretch_adapter None) = false
  /\ si7020_probe (transport third_time_lucky)
       (client_on i2c_only_no_stretch_adapter None) boot
     = (- ENODEV, None, boot).
Proof. repeat split. Qed.

(** ** The mode over the life of the device *)



(** ** Unknown queries *)

(** C8.  A query kind that is neither Raw, Scale nor Offset is answered
    with -EINVAL; the out-parameters and the world, log included, are as
    they were. *)
Theorem unknown_query_is_einval {B : Type} (cfg : kernel_config) (plat : platform B)
    (fuel : nat) (indio_dev : iio_dev) (chan : iio_chan_spec) (o : outs) (mask : Z)
    (w : world B) :
  mask <> IIO_CHAN_INFO_RAW ->
  mask <> IIO_CHAN_INFO_SCALE ->
  mask <> IIO_CHAN_INFO_OFFSET ->
  si7020_read_raw cfg plat fuel indio_dev chan o mask w = Some (- EINVAL, o, w).
Proof.
  intros Hraw Hscale Hoffset.
  unfold_read.
  apply Z.eqb_neq in Hraw, Hscale, Hoffset.
  now rewrite Hraw, Hscale, Hoffset.
Qed.

(** IIO_CHAN_INFO_PROCESSED (1) is a query kind the driver does not serve. *)
Lemma unknown_query_is_einval_witness :
  1 <> IIO_CHAN_INFO_RAW /\ 1 <> IIO_CHAN_INFO_SCALE /\ 1 <> IIO_CHAN_INFO_OFFSET
  /\ si7020_read_raw hz1000 (transport holds_9234) 0
       (device_of (client_on stretching_adapter None)) humidity out0 1 boot
     = Some (- EINVAL, out0, boot).
Proof.
  split; [discriminate|]. split; [discriminate|]. split; [discriminate|].
  apply unknown_query_is_einval; discriminate.
Defined.

(** ** Opcodes *)

(** C9.  The opcodes on the wire are those of the data sheet.  Whatever a raw
    read returns, the only command byte it has sent is 0xE5 (Humidity) or 0xE3
    (Temperature) in hold mode and 0xF5 or 0xF3 in no-hold mode.  The probe
    refuses, with -ENODEV and before any transfer, exactly the adapters that
    fail the checks of lines 168 to 185; on every other adapter it resets the
    device: the first and only command it sends is 0xFE, and when that write
    fails its error is what the probe returns, with no device registered and
    nothing else done. *)
Theorem wire_opcodes_are_exact {B : Type} (cfg : kernel_config) (plat : platform B)
    (fuel : nat) (indio_dev : iio_dev) (m : Z) (o : outs) (w : world B)
    (client : i2c_client) :
  let temp := {| type := IIO_TEMP; info_mask_separate := m |} in
  let rh := {| type := IIO_HUMIDITYRELATIVE; info_mask_separate := m |} in
  let smbus :=
    i2c_check_functionality (adapter client)
      (Z.lor I2C_FUNC_SMBUS_WRITE_BYTE I2C_FUNC_SMBUS_READ_WORD_DATA) in
  let raw_io := i2c_check_functionality (adapter client) I2C_FUNC_I2C in
  let no_stretch := i2c_check_quirks (adapter client) I2C_AQ_NO_CLK_STRETCH in
  let accepted :=
    smbus && match dev_get_platdata client with
             | Some pdata => if blocking_io pdata then negb no_stretch else raw_io
             | None => negb (negb raw_io && no_stretch)
             end in
  (forall r,
      si7020_read_raw cfg plat fuel indio_dev rh o IIO_CHAN_INFO_RAW w = Some r ->
      exists evs, io_log (snd r) = io_log w ++ evs
        /\ commands_sent evs =
           [if si7020_holdmode (iio_priv indio_dev) then 0xE5 else 0xF5])
  /\ (forall r,
      si7020_read_raw cfg plat fuel indio_dev temp o IIO_CHAN_INFO_RAW w = Some r ->
      exists evs, io_log (snd r) = io_log w ++ evs
        /\ commands_sent evs =
           [if si7020_holdmode (iio_priv indio_dev) then 0xE3 else 0xF3])
  /\ (forall chan : iio_chan_spec,
        si7020_holdmode (iio_priv indio_dev) = true ->
        exists r,
          si7020_read_raw cfg plat fuel indio_dev chan o IIO_CHAN_INFO_RAW w = Some r)
  /\ (forall (chan : iio_chan_spec) (D : Z),
        config_ok cfg ->
        recv_takes_at_most plat D ->
        D + SI7020_NOHOLD_SLEEP_MAX < 2 ^ (BITS_PER_LONG cfg - 1) ->
        (si7020_poll_fuel cfg chan <= fuel)%nat ->
        exists r,
          si7020_read_raw cfg plat fuel indio_dev chan o IIO_CHAN_INFO_RAW w = Some r)
  /\ (si7020_probe plat client w = (- ENODEV, None, w)
      \/ si7020_probe plat client w = si7020_probe_device plat client w)
  /\ (exists (ret : Z) (evs : list io_event),
        io_log (snd (si7020_probe_device plat client w))
        = io_log w ++ IoWriteByte 0xFE ret :: evs
        /\ commands_sent evs = []
        /\ (ret < 0 ->
            fst (si7020_probe_device plat client w) = (ret, None) /\ evs = []))
  /\ (accepted = false -> si7020_probe plat client w = (- ENODEV, None, w))
  /\ (accepted = true ->
      exists (ret : Z) (evs : list io_event),
        ret = fst (fst (xfer_write_byte plat (now w) (bus w) 0xFE))
        /\ io_log (snd (si7020_probe plat client w))
           = io_log w ++ IoWriteByte 0xFE ret :: evs
        /\ commands_sent (IoWriteByte 0xFE ret :: evs) = [0xFE]
        /\ (ret < 0 ->
            fst (si7020_probe plat client w) = (ret, None) /\ evs = [])).
Proof.
  intros temp rh smbus raw_io no_stretch accepted.
  pose proof (si7020_probe_accepts plat client w) as Hprobe.
  fold smbus raw_io no_stretch in Hprobe. fold accepted in Hprobe.
  destruct (si7020_probe_device_log plat client w) as (evs & Hlog & Hcmd & Hfail).
  repeat apply conj.
  - intros r Hr. apply si7020_read_raw_command in Hr. exact Hr.
  - intros r Hr. apply si7020_read_raw_command in Hr. exact Hr.
  - intros chan Hmode. rewrite si7020_read_raw_hold by exact Hmode. cbv zeta.
    unfold si7020_raw_done. destruct (_ <? 0); eauto.
  - intros chan D Hcfg Hdur Hwrap Hfuel.
    apply (si7020_read_raw_returns cfg plat Hcfg fuel indio_dev chan o w D);
      [exact Hdur|unfold SI7020_NOHOLD_SLEEP_MAX in Hwrap; lia|exact Hfuel].
  - apply si7020_probe_cases.
  - eexists _, evs. split; [exact Hlog|]. split; [exact Hcmd|exact Hfail].
  - intros Hno. now rewrite Hprobe, Hno.
  - intros Hyes. rewrite Hprobe, Hyes.
    eexists _, evs. split; [reflexivity|]. split; [exact Hlog|].
    split; [cbn [commands_sent flat_map app]; fold (commands_sent evs);
            now rewrite Hcmd|exact Hfail].
Qed.

(** The probe on an adapter it accepts, with a device that acknowledges the
    reset and with one that does not, and on an adapter without the SMBus
    commands. *)
Lemma wire_opcodes_are_exact_witness :
  si7020_probe (transport holds_9234) (client_on stretching_adapter None) boot
  = (0, Some (device_of (client_on stretching_adapter None)),
     {| now := 27000; bus := O; io_log := [IoWriteByte 0xFE 0; IoMsleep 15] |})
  /\ (exists evs : list io_event,
        io_log (snd (si7020_probe (transport holds_9234)
                       (client_on stretching_adapter None) boot))
        = IoWriteByte 0xFE 0 :: evs
        /\ commands_sent (IoWriteByte 0xFE 0 :: evs) = [0xFE])
  /\ fst (si7020_probe (transport reset_fails)
            (client_on stretching_adapter None) boot) = (- ENXIO, None)
  /\ io_log (snd (si7020_probe (transport reset_fails)
                    (client_on stretching_adapter None) boot))
     = [IoWriteByte 0xFE (- ENXIO)]
  /\ si7020_probe (transport holds_9234) (client_on i2c_only_adapter None) boot
     = (- ENODEV, None, boot).
Proof.
  split; [reflexivity|]. split; [|split; [|split]].
  - pose proof (wire_opcodes_are_exact hz1000 (transport holds_9234) 0
                  (device_of (client_on stretching_adapter None)) 13 out0 boot
                  (client_on stretching_adapter None)) as H.
    cbv zeta in H. destruct H as (_ & _ & _ & _ & _ & _ & _ & Hyes).
    destruct (Hyes eq_refl) as (ret & evs & -> & Hlog & Hcmd & _).
    exists evs. split; [exact Hlog|exact Hcmd].
  - pose proof (wire_opcodes_are_exact hz1000 (transport reset_fails) 0
                  (device_of (client_on stretching_adapter None)) 13 out0 boot
                  (client_on stretching_adapter None)) as H.
    cbv zeta in H. destruct H as (_ & _ & _ & _ & _ & _ & _ & Hyes).
    destruct (Hyes eq_refl) as (ret & evs & -> & _ & _ & Hfail).
    destruct (Hfail ltac:(reflexivity)) as [Hfst _]. exact Hfst.
  - pose proof (wire_opcodes_are_exact hz1000 (transport reset_fails) 0
                  (device_of (client_on stretching_adapter None)) 13 out0 boot
                  (client_on stretching_adapter None)) as H.
    cbv zeta in H. destruct H as (_ & _ & _ & _ & _ & _ & _ & Hyes).
    destruct (Hyes eq_refl) as (ret & evs & -> & Hlog & _ & Hfail).
    destruct (Hfail ltac:(reflexivity)) as [_ ->]. exact Hlog.
  - pose proof (wire_opcodes_are_exact hz1000 (transport holds_9234) 0
                  (device_of (client_on stretching_adapter None)) 13 out0 boot
                  (client_on i2c_only_adapter None)) as H.
    cbv zeta in H. destruct H as (_ & _ & _ & _ & _ & _ & Hno & _).
    exact (Hno eq_refl).
Defined.

(** ** The clamp bounds and the calibration constants *)

(** C10.  The clamp bounds fit the calibration constants.  With the scale
    125000 / 16384 and the offset -786 that the Humidity channel reports,
    every raw value r in [786, 13893] is processed to
    (r - 786) * 125000 / 16384, which lies in [0, 100000] as a rational; so
    does the value of every successful raw read.  The bounds are the tightest
    ones: 785 falls below 0 and 13894 above 100000. *)
Theorem humidity_clamp_fits_calibration {B : Type} (cfg : kernel_config)
    (plat : platform B) (fuel : nat) (indio_dev : iio_dev) (m : Z) (o : outs)
    (w : world B) :
  let rh := {| type := IIO_HUMIDITYRELATIVE; info_mask_separate := m |} in
  exists num den off : Z,
    si7020_read_raw cfg plat fuel indio_dev rh o IIO_CHAN_INFO_SCALE w
    = Some (IIO_VAL_FRACTIONAL, {| val := num; val2 := den |}, w)
    /\ si7020_read_raw cfg plat fuel indio_dev rh o IIO_CHAN_INFO_OFFSET w
       = Some (IIO_VAL_INT, {| val := off; val2 := val2 o |}, w)
    /\ (forall r : Z, 786 <= r <= 13893 ->
          (processed_value r off num den
           == inject_Z ((r - 786) * 125000) / inject_Z 16384)%Q
          /\ (0 <= processed_value r off num den <= 100000)%Q)
    /\ (forall (ret : Z) (o' : outs) (w' : world B),
          si7020_read_raw cfg plat fuel indio_dev rh o IIO_CHAN_INFO_RAW w
          = Some (ret, o', w') ->
          0 <= ret ->
          (0 <= processed_value (val o') off num den <= 100000)%Q)
    /\ (processed_value 785 off num den < 0)%Q
    /\ (100000 < processed_value 13894 off num den)%Q.
Proof.
  intros rh.
  exists 125000, 16384, (-786). repeat apply conj; try reflexivity.
  - intros r Hr. split; [apply processed_humidity|now apply processed_humidity_range].
  - intros ret o' w' Hrun Hret.
    apply processed_humidity_range.
    now apply (si7020_humidity_range cfg plat fuel indio_dev rh o w ret o' w').
Qed.

(** ** Beyond the claims: the channel table and the registration *)

(** X1.  The channel table advertises what the read operation serves, and
    nothing else: for a channel of the table, a query kind whose bit is set
    in [info_mask_separate] is Raw, Scale or Offset, and the read does not
    reject it; a query kind whose bit is clear is rejected with -EINVAL,
    the out-parameters and the world as they were. *)
Theorem advertised_queries_are_served {B : Type} (cfg : kernel_config)
    (plat : platform B) (fuel : nat) (indio_dev : iio_dev) (chan : iio_chan_spec)
    (o : outs) (n : Z) (w : world B) :
  In chan si7020_channels ->
  (Z.testbit (info_mask_separate chan) n = true ->
   (n = IIO_CHAN_INFO_RAW \/ n = IIO_CHAN_INFO_SCALE \/ n = IIO_CHAN_INFO_OFFSET)
   /\ si7020_read_raw cfg plat fuel indio_dev chan o n w <> Some (- EINVAL, o, w))
  /\ (Z.testbit (info_mask_separate chan) n = false ->
      si7020_read_raw cfg plat fuel indio_dev chan o n w = Some (- EINVAL, o, w)).
Proof.
  intros Hin.
  assert (Hmask : info_mask_separate chan = 13)
    by (destruct Hin as [<-|[<-|[]]]; reflexivity).
  assert (Hbits : Z.testbit 13 n = (n =? 0) || (n =? 2) || (n =? 3)).
  { destruct n as [|p|p]; try reflexivity;
      destruct p as [[p|p|]|[p|p|]|]; try reflexivity;
      destruct p; reflexivity. }
  rewrite Hmask, Hbits.
  assert (Hraw : si7020_read_raw cfg plat fuel indio_dev chan o IIO_CHAN_INFO_RAW w
                 <> Some (- EINVAL, o, w)).
  { intros Heq.
    destruct (si7020_read_raw_command cfg plat fuel indio_dev chan o w _ Heq)
      as (evs & Hlog & Hcmd).
    cbn [snd] in Hlog. rewrite <- (app_nil_r (io_log w)) in Hlog at 1.
    apply app_inv_head in Hlog. subst evs. discriminate Hcmd. }
  destruct (n =? 0) eqn:H0.
  { apply Z.eqb_eq in H0. subst n.
    split; [intros _; split; [now left|exact Hraw]|discriminate]. }
  destruct (n =? 2) eqn:H2.
  { apply Z.eqb_eq in H2. subst n.
    split; [intros _; split; [right; now left|discriminate]|discriminate]. }
  destruct (n =? 3) eqn:H3.
  { apply Z.eqb_eq in H3. subst n.
    split; [intros _; split; [right; now right|discriminate]|discriminate]. }
  split; [discriminate|]. intros _.
  unfold_read.
  change IIO_CHAN_INFO_RAW with 0. change IIO_CHAN_INFO_SCALE with 2.
  change IIO_CHAN_INFO_OFFSET with 3.
  now rewrite H0, H2, H3.
Qed.

(** The Scale query of the Humidity channel is advertised and served; the
    query kind 1 (IIO_CHAN_INFO_PROCESSED) is neither. *)
Lemma advertised_queries_are_served_witness :
  In humidity si7020_channels
  /\ Z.testbit (info_mask_separate humidity) IIO_CHAN_INFO_SCALE = true
  /\ si7020_read_raw hz1000 (transport holds_9234) 0
       (device_of (client_on stretching_adapter None)) humidity out0
       IIO_CHAN_INFO_SCALE boot
     <> Some (- EINVAL, out0, boot)
  /\ Z.testbit (info_mask_separate humidity) 1 = false
  /\ si7020_read_raw hz1000 (transport holds_9234) 0
       (device_of (client_on stretching_adapter None)) humidity out0 1 boot
     = Some (- EINVAL, out0, boot).
Proof.
  assert (Hin : In humidity si7020_channels) by (left; reflexivity).
  split; [exact Hin|]. split; [reflexivity|]. split; [|split; [reflexivity|]].
  - destruct (advertised_queries_are_served hz1000 (transport holds_9234) 0
                (device_of (client_on stretching_adapter None)) humidity out0
                IIO_CHAN_INFO_SCALE boot Hin) as [H _].
    destruct (H eq_refl) as [_ Hserved]. exact Hserved.
  - destruct (advertised_queries_are_served hz1000 (transport holds_9234) 0
                (device_of (client_on stretching_adapter None)) humidity out0
                1 boot Hin) as [_ H].
    exact (H eq_refl).
Defined.



(** * More of the driver *)

(** ** The out-parameters *)

(** X4.  Whatever the query, a read returns a negative errno, IIO_VAL_INT or
    IIO_VAL_FRACTIONAL.  An error leaves [*val] and [*val2] untouched; only a
    Scale query writes [*val2], and it alone is tagged fractional; only a Raw
    query touches the world. *)
Theorem read_raw_keeps_out_parameters {B : Type} (cfg : kernel_config)
    (plat : platform B) (fuel : nat) (indio_dev : iio_dev) (chan : iio_chan_spec)
    (o : outs) (mask : Z) (w : world B) (ret : Z) (o' : outs) (w' : world B) :
  si7020_read_raw cfg plat fuel indio_dev chan o mask w = Some (ret, o', w') ->
  (ret < 0 \/ ret = IIO_VAL_INT \/ ret = IIO_VAL_FRACTIONAL)
  /\ (ret < 0 -> o' = o)
  /\ (mask <> IIO_CHAN_INFO_SCALE -> val2 o' = val2 o)
  /\ (ret = IIO_VAL_FRACTIONAL <-> mask = IIO_CHAN_INFO_SCALE)
  /\ (mask <> IIO_CHAN_INFO_RAW -> w' = w).
Proof.
  destruct (mask =? IIO_CHAN_INFO_RAW) eqn:Hraw.
  - apply Z.eqb_eq in Hraw. subst mask.
    assert (Hshape : si7020_read_raw cfg plat fuel indio_dev chan o IIO_CHAN_INFO_RAW w
                     = Some (ret, o', w') ->
                     (ret < 0 /\ o' = o) \/ (ret = IIO_VAL_INT /\ val2 o' = val2 o)).
    { rewrite si7020_read_raw_raw. unfold si7020_raw_done.
      destruct (si7020_holdmode (iio_priv indio_dev)).
      - rewrite read_word_swapped_eq.
        destruct (_ <? 0) eqn:Hneg; intros Heq;
          apply some_triple_inv in Heq as (-> & -> & ->).
        + left. split; [now apply Z.ltb_lt|reflexivity].
        + right. split; reflexivity.
      - rewrite write_byte_eq.
        destruct (_ <? 0) eqn:Hneg.
        { intros Heq. apply some_triple_inv in Heq as (-> & -> & ->).
          left. split; [now apply Z.ltb_lt|reflexivity]. }
        destruct (si7020_poll _ _ _ _ _ _) as [[[r buf] w2]|]; [|discriminate].
        destruct (r <? 0) eqn:Hr; intros Heq;
          apply some_triple_inv in Heq as (-> & -> & ->).
        + left. split; [now apply Z.ltb_lt|reflexivity].
        + right. split; reflexivity. }
    intros Hrun. unfold IIO_VAL_INT, IIO_VAL_FRACTIONAL, IIO_CHAN_INFO_SCALE,
      IIO_CHAN_INFO_RAW in *.
    destruct (Hshape Hrun) as [[Hneg ->]|[-> Hval2]];
      (split; [lia|]); (split; [reflexivity || (intros; lia)|]);
      (split; [intros _; reflexivity || exact Hval2|]);
      (split; [split; intros; lia|]); intros Hne; now contradiction Hne.
  - unfold_read. rewrite Hraw. apply Z.eqb_neq in Hraw.
    unfold IIO_VAL_INT, IIO_VAL_FRACTIONAL, EINVAL in *.
    destruct (mask =? IIO_CHAN_INFO_SCALE) eqn:Hscale.
    + apply Z.eqb_eq in Hscale. intros Heq.
      apply some_triple_inv in Heq as (-> & -> & ->).
      split; [lia|]. split; [intros; lia|].
      split; [intros Hne; now contradiction Hne|].
      split; [split; intros; [exact Hscale|reflexivity]|reflexivity].
    + apply Z.eqb_neq in Hscale.
      destruct (mask =? IIO_CHAN_INFO_OFFSET); intros Heq;
        apply some_triple_inv in Heq as (-> & -> & ->);
        (split; [lia|]); (split; [reflexivity || (intros; lia)|]);
        (split; [reflexivity|]);
        (split; [split; intros; [lia|contradiction]|reflexivity]).
Qed.

(** A humidity read in hold mode, with the out-parameters preset to 41 and 42. *)
Lemma read_raw_keeps_out_parameters_witness :
  si7020_read_raw hz1000 (transport holds_2000) 0
    (device_of (client_on stretching_adapter None)) humidity
    {| val := 41; val2 := 42 |} IIO_CHAN_INFO_RAW boot
  = Some (IIO_VAL_INT, {| val := 786; val2 := 42 |},
          {| now := 12000; bus := O; io_log := [IoReadWordSwapped 0xE5 2000] |})
  /\ (IIO_CHAN_INFO_RAW <> IIO_CHAN_INFO_SCALE ->
      val2 {| val := 786; val2 := 42 |} = val2 {| val := 41; val2 := 42 |}).
Proof.
  split; [reflexivity|].
  destruct (read_raw_keeps_out_parameters hz1000 (transport holds_2000) 0
              (device_of (client_on stretching_adapter None)) humidity
              {| val := 41; val2 := 42 |} IIO_CHAN_INFO_RAW boot _ _ _ eq_refl)
    as (_ & _ & H & _).
  exact H.
Defined.

(** ** The value of a raw read *)

Lemma byte_val_range (b : byte) : 0 <= byte_val b < 256.
Proof.
  unfold byte_val. pose proof (Byte.to_N_bounded b). lia.
Qed.

(** Two bytes assembled big-endian: the bits of the low byte lie below those
    of the shifted high byte. *)
Lemma assemble_big_endian (hi lo : Z) :
  0 <= hi -> 0 <= lo < 256 ->
  Z.lor (Z.shiftl hi 8) lo = 256 * hi + lo.
Proof.
  intros Hhi Hlo.
  assert (Hdisjoint : Z.land (Z.shiftl hi 8) lo = 0).
  { apply Z.bits_inj'. intros n Hn. rewrite Z.land_spec, Z.bits_0.
    destruct (Z.lt_ge_cases n 8) as [Hlow|Hhigh].
    - rewrite Z.shiftl_spec_low by exact Hlow. reflexivity.
    - replace (Z.testbit lo n) with false; [apply andb_false_r|].
      symmetry. destruct (Z.eq_dec lo 0) as [->|Hnz]; [apply Z.bits_0|].
      apply Z.bits_above_log2; [lia|].
      apply Z.lt_le_trans with 8; [|exact Hhigh].
      apply Z.log2_lt_pow2; lia. }
  pose proof (Z.add_lor_land (Z.shiftl hi 8) lo) as Hadd.
  rewrite Hdisjoint, Z.shiftl_mul_pow2 in Hadd by lia.
  rewrite Z.shiftl_mul_pow2 in * by lia.
  change (2 ^ 8) with 256 in *. lia.
Qed.

Lemma shiftr_2_bounds (d : Z) : 0 <= d < 65536 -> 0 <= Z.shiftr d 2 <= 16383.
Proof.
  intros Hd. rewrite Z.shiftr_div_pow2 by lia. change (2 ^ 2) with 4.
  split; [apply Z.div_pos; lia|].
  apply Z.lt_succ_r. apply Z.div_lt_upper_bound; lia.
Qed.

Lemma shiftr_2_mono (d1 d2 : Z) : d1 <= d2 -> Z.shiftr d1 2 <= Z.shiftr d2 2.
Proof.
  intros Hd. rewrite !Z.shiftr_div_pow2 by lia. apply Z.div_le_mono; lia.
Qed.

(** What a successful raw read returns, in either mode: the 16-bit datum of
    the transfer that ended it, without its two status bits, and clamped on
    the Humidity channel. *)
Lemma si7020_raw_value {B : Type} (cfg : kernel_config) (plat : platform B)
    (fuel : nat) (indio_dev : iio_dev) (chan : iio_chan_spec) (o : outs)
    (w : world B) (ret : Z) (o' : outs) (w' : world B) :
  si7020_read_raw cfg plat fuel indio_dev chan o IIO_CHAN_INFO_RAW w
  = Some (ret, o', w') ->
  0 <= ret ->
  exists (e : io_event) (d : Z),
    last_event (io_log w') = Some e
    /\ datum_of_event e = Some d
    /\ 0 <= d
    /\ (si7020_holdmode (iio_priv indio_dev) = true ->
        exists t b c, d = fst (fst (xfer_read_word_swapped plat t b c)))
    /\ (si7020_holdmode (iio_priv indio_dev) = false -> d < 65536)
    /\ val o' = if iio_chan_type_eqb (type chan) IIO_HUMIDITYRELATIVE
                then clamp_val (Z.shiftr d 2) 786 13893 else Z.shiftr d 2.
Proof.
  rewrite si7020_read_raw_raw. unfold si7020_raw_done.
  destruct (si7020_holdmode (iio_priv indio_dev)).
  - rewrite read_word_swapped_eq.
    set (x := xfer_read_word_swapped plat (now w) (bus w) _).
    destruct (fst (fst x) <? 0) eqn:Hneg; intros Heq Hret;
      apply some_triple_inv in Heq as (-> & -> & ->).
    + apply Z.ltb_lt in Hneg. lia.
    + exists (IoReadWordSwapped
                (if iio_chan_type_eqb (type chan) IIO_TEMP
                 then SI7020CMD_TEMP_HOLD else SI7020CMD_RH_HOLD) (fst (fst x))),
             (fst (fst x)).
      cbn [io_log val datum_of_event]. rewrite Hneg. apply Z.ltb_ge in Hneg.
      split; [apply last_event_snoc|]. split; [reflexivity|]. split; [exact Hneg|].
      split; [intros _; exists (now w), (bus w),
                (if iio_chan_type_eqb (type chan) IIO_TEMP
                 then SI7020CMD_TEMP_HOLD else SI7020CMD_RH_HOLD); reflexivity|].
      split; [discriminate|reflexivity].
  - rewrite write_byte_eq.
    destruct (_ <? 0) eqn:Hneg.
    { intros Heq Hret. apply some_triple_inv in Heq as (-> & -> & ->).
      apply Z.ltb_lt in Hneg. lia. }
    destruct (si7020_poll _ _ _ _ _ _) as [[[r buf] w2]|] eqn:Hpoll; [|discriminate].
    apply si7020_poll_trace in Hpoll as (tries & Hlog & _).
    destruct (r <? 0) eqn:Hr; intros Heq Hret;
      apply some_triple_inv in Heq as (-> & -> & ->).
    + apply Z.ltb_lt in Hr. lia.
    + exists (IoMasterRecv 2 r (fst buf) (snd buf)),
             (256 * byte_val (fst buf) + byte_val (snd buf)).
      pose proof (byte_val_range (fst buf)) as H0.
      pose proof (byte_val_range (snd buf)) as H1.
      cbn [val datum_of_event]. rewrite Hr.
      split; [rewrite Hlog, !app_assoc; apply last_event_snoc|].
      split; [reflexivity|]. split; [lia|]. split; [discriminate|].
      split; [intros _; lia|].
      now rewrite assemble_big_endian by lia.
Qed.

(** X5.  A successful raw read yields a 14-bit value: whatever the channel
    and the mode, [*val] lies in [0, 16383], provided that in hold mode the
    transport keeps its word reads to 16 bits. *)
Theorem raw_value_is_14_bit {B : Type} (cfg : kernel_config) (plat : platform B)
    (fuel : nat) (indio_dev : iio_dev) (chan : iio_chan_spec) (o : outs)
    (w : world B) (ret : Z) (o' : outs) (w' : world B) :
  (si7020_holdmode (iio_priv indio_dev) = true -> words_are_16_bit plat) ->
  si7020_read_raw cfg plat fuel indio_dev chan o IIO_CHAN_INFO_RAW w
  = Some (ret, o', w') ->
  0 <= ret ->
  0 <= val o' <= 16383.
Proof.
  intros Hwords Hrun Hret.
  destruct (si7020_raw_value cfg plat fuel indio_dev chan o w ret o' w' Hrun Hret)
    as (e & d & _ & _ & Hd & Hhold & Hnohold & ->).
  assert (Hd16 : d < 65536).
  { destruct (si7020_holdmode (iio_priv indio_dev)) eqn:Hmode.
    - destruct (Hhold eq_refl) as (t & b & c & ->). now apply Hwords.
    - now apply Hnohold. }
  pose proof (shiftr_2_bounds d (conj Hd Hd16)) as Hshift.
  destruct (iio_chan_type_eqb (type chan) IIO_HUMIDITYRELATIVE);
    unfold clamp_val; lia.
Qed.

(** The temperature channel in no-hold mode, where the bytes 4E 20 make
    5000. *)
Lemma raw_value_is_14_bit_witness :
  (si7020_holdmode (iio_priv (device_of (client_on no_stretch_adapter None))) = true ->
   words_are_16_bit (transport third_time_lucky))
  /\ si7020_read_raw hz1000 (transport third_time_lucky) 16
       (device_of (client_on no_stretch_adapter None)) temperature out0
       IIO_CHAN_INFO_RAW boot
     = Some (IIO_VAL_INT, {| val := 5000; val2 := 0 |},
             {| now := 7200; bus := 3%nat;
                io_log := [IoWriteByte 0xF3 0;
                           IoMasterRecv 2 (- ENXIO) x00 x00;
                           IoUsleepRange 2000 6000 3000;
                           IoMasterRecv 2 (- ENXIO) x00 x00;
                           IoUsleepRange 2000 6000 3000;
                           IoMasterRecv 2 2 x4e x20] |})
  /\ 0 <= IIO_VAL_INT
  /\ 0 <= 5000 <= 16383.
Proof.
  assert (Hwords : si7020_holdmode
                     (iio_priv (device_of (client_on no_stretch_adapter None))) = true ->
                   words_are_16_bit (transport third_time_lucky))
    by discriminate.
  assert (Hok : 0 <= IIO_VAL_INT) by discriminate.
  split; [exact Hwords|]. split; [reflexivity|]. split; [exact Hok|].
  exact (raw_value_is_14_bit hz1000 (transport third_time_lucky) 16
           (device_of (client_on no_stretch_adapter None)) temperature out0 boot
           _ _ _ Hwords eq_refl Hok).
Defined.

(** X6.  The value of a successful raw read depends on the channel and on
    the 16-bit datum of the last transfer only, and grows with it: of two
    reads of the same kind of channel, in whatever modes and on whatever
    transports, the one with the smaller datum does not return the larger
    value, so equal data return equal values. *)
Theorem raw_value_grows_with_datum {B1 B2 : Type} (cfg1 cfg2 : kernel_config)
    (plat1 : platform B1) (plat2 : platform B2) (fuel1 fuel2 : nat)
    (dev1 dev2 : iio_dev) (chan1 chan2 : iio_chan_spec) (o1 o2 : outs)
    (w1 : world B1) (w2 : world B2) (ret1 ret2 : Z) (o1' o2' : outs)
    (w1' : world B1) (w2' : world B2) (e1 e2 : io_event) (d1 d2 : Z) :
  type chan1 = type chan2 ->
  si7020_read_raw cfg1 plat1 fuel1 dev1 chan1 o1 IIO_CHAN_INFO_RAW w1
  = Some (ret1, o1', w1') ->
  si7020_read_raw cfg2 plat2 fuel2 dev2 chan2 o2 IIO_CHAN_INFO_RAW w2
  = Some (ret2, o2', w2') ->
  0 <= ret1 -> 0 <= ret2 ->
  last_event (io_log w1') = Some e1 -> datum_of_event e1 = Some d1 ->
  last_event (io_log w2') = Some e2 -> datum_of_event e2 = Some d2 ->
  (d1 <= d2 -> val o1' <= val o2') /\ (d1 = d2 -> val o1' = val o2').
Proof.
  intros Htype Hrun1 Hrun2 Hret1 Hret2 He1 Hd1 He2 Hd2.
  destruct (si7020_raw_value cfg1 plat1 fuel1 dev1 chan1 o1 w1 ret1 o1' w1' Hrun1 Hret1)
    as (e1' & d1' & He1' & Hd1' & _ & _ & _ & ->).
  destruct (si7020_raw_value cfg2 plat2 fuel2 dev2 chan2 o2 w2 ret2 o2' w2' Hrun2 Hret2)
    as (e2' & d2' & He2' & Hd2' & _ & _ & _ & ->).
  assert (e1' = e1) by congruence. subst e1'.
  assert (e2' = e2) by congruence. subst e2'.
  assert (d1' = d1) by congruence. subst d1'.
  assert (d2' = d2) by congruence. subst d2'.
  rewrite Htype. split.
  - intros Hle. pose proof (shiftr_2_mono d1 d2 Hle).
    destruct (iio_chan_type_eqb (type chan2) IIO_HUMIDITYRELATIVE);
      unfold clamp_val; lia.
  - intros ->. reflexivity.
Qed.

(** The same datum, 2000, read in hold mode and in no-hold mode, on the
    Temperature channel. *)
Lemma raw_value_grows_with_datum_witness :
  type temperature = type temperature
  /\ si7020_read_raw hz1000 (transport holds_2000) 0
       (device_of (client_on stretching_adapter None)) temperature out0
       IIO_CHAN_INFO_RAW boot
     = Some (IIO_VAL_INT, {| val := 500; val2 := 0 |},
             {| now := 12000; bus := O; io_log := [IoReadWordSwapped 0xE3 2000] |})
  /\ si7020_read_raw hz100 (transport holds_2000) 1
       (device_of (client_on no_stretch_adapter None)) temperature out0
       IIO_CHAN_INFO_RAW boot
     = Some (IIO_VAL_INT, {| val := 500; val2 := 0 |},
             {| now := 24000; bus := 1%nat;
                io_log := [IoWriteByte 0xF3 0; IoMasterRecv 2 2 x07 xd0] |})
  /\ 0 <= IIO_VAL_INT
  /\ datum_of_event (IoReadWordSwapped 0xE3 2000) = Some 2000
  /\ datum_of_event (IoMasterRecv 2 2 x07 xd0) = Some 2000
  /\ val {| val := 500; val2 := 0 |} = val {| val := 500; val2 := 0 |}.
Proof.
  assert (Hok : 0 <= IIO_VAL_INT) by discriminate.
  split; [reflexivity|]. split; [reflexivity|]. split; [reflexivity|].
  split; [exact Hok|]. split; [reflexivity|]. split; [reflexivity|].
  destruct (raw_value_grows_with_datum hz1000 hz100 (transport holds_2000)
              (transport holds_2000) 0 1
              (device_of (client_on stretching_adapter None))
              (device_of (client_on no_stretch_adapter None))
              temperature temperature out0 out0 boot boot _ _ _ _ _ _
              (IoReadWordSwapped 0xE3 2000) (IoMasterRecv 2 2 x07 xd0) 2000 2000
              eq_refl eq_refl eq_refl Hok Hok eq_refl eq_refl eq_refl eq_refl)
    as [_ H].
  exact (H eq_refl).
Defined.

(** ** The rounded offsets *)

(** X7.  The integer offsets are the exact calibration offsets rounded to the
    nearest integer, and the rounding makes every processed value too high by
    a constant: the consumer's (raw + offset) * scale exceeds the value from
    the exact offset by 2.7734375 thousandths of a degree on the Temperature
    channel and by 3.2958984375 thousandths of a percent on the Humidity
    channel, whatever the raw value. *)
Theorem offset_rounding_bias {B : Type} (cfg : kernel_config) (plat : platform B)
    (fuel : nat) (indio_dev : iio_dev) (chan : iio_chan_spec) (o : outs)
    (w : world B) :
  exists (off sc : outs),
    si7020_read_raw cfg plat fuel indio_dev chan o IIO_CHAN_INFO_OFFSET w
    = Some (IIO_VAL_INT, off, w)
    /\ si7020_read_raw cfg plat fuel indio_dev chan o IIO_CHAN_INFO_SCALE w
       = Some (IIO_VAL_FRACTIONAL, sc, w)
    /\ (exact_offset (type chan) - 1 / 2 < inject_Z (val off))%Q
    /\ (inject_Z (val off) < exact_offset (type chan) + 1 / 2)%Q
    /\ forall raw : Z,
         (processed_value raw (val off) (val sc) (val2 sc)
          == (inject_Z raw + exact_offset (type chan))
             * (inject_Z (val sc) / inject_Z (val2 sc))
             + (if iio_chan_type_eqb (type chan) IIO_TEMP
                then 2.7734375 else 3.2958984375))%Q.
Proof.
  unfold_read. cbn [Z.eqb IIO_CHAN_INFO_OFFSET IIO_CHAN_INFO_SCALE IIO_CHAN_INFO_RAW].
  eexists _, _. split; [reflexivity|]. split; [reflexivity|].
  cbn [val val2]. unfold exact_offset, processed_value.
  destruct (iio_chan_type_eqb (type chan) IIO_TEMP);
    (split; [reflexivity|]); (split; [reflexivity|]); intros raw;
    unfold Qeq, Qplus, Qmult, Qdiv, Qinv, inject_Z;
    cbn; lia.
Qed.

(** X8.  A read does not depend on the value of [jiffies] at boot: wherever
    the tick counter stands, and whether or not it wraps around while the
    driver polls, every request returns the same code, the same values and
    the same transfers and sleeps. *)
Theorem read_ignores_jiffies_at_boot {B : Type} (cfg : kernel_config)
    (plat : platform B) (j : Z) (fuel : nat) (indio_dev : iio_dev)
    (chan : iio_chan_spec) (o : outs) (mask : Z) (w : world B) :
  si7020_read_raw (with_initial_jiffies cfg j) plat fuel indio_dev chan o mask w
  = si7020_read_raw cfg plat fuel indio_dev chan o mask w.
Proof.
  unfold_read. destruct (mask =? IIO_CHAN_INFO_RAW); [|reflexivity].
  destruct (si7020_holdmode (iio_priv indio_dev)); [reflexivity|].
  destruct (i2c_smbus_write_byte plat _ w) as [ret w1].
  destruct (ret <? 0); [reflexivity|].
  unfold jiffies. now rewrite si7020_poll_any_boot.
Qed.

(** X9.  Whatever the device answers, a raw read in no-hold mode that
    returns has polled for a bounded time and a bounded number of times:
    when no two-byte read takes longer than [D] microseconds, where
    D + 6000 < 2 ^ (BITS_PER_LONG - 1) so that no transfer followed by a
    sleep outlasts half the range of the tick counter, it returns earlier
    than the type-specific timeout rounded up to whole ticks, plus one tick,
    one sleep of 6000 microseconds and one transfer of [D] microseconds
    after the command write, and it has made no more two-byte reads than
    [si7020_poll_fuel] (16 for Humidity and 10 for Temperature at
    HZ=1000). *)
Theorem nohold_read_polls_within_budget {B : Type} (cfg : kernel_config)
    (plat : platform B) (fuel : nat) (indio_dev : iio_dev) (chan : iio_chan_spec)
    (o : outs) (w : world B) (D : Z) (ret : Z) (o' : outs) (w' : world B) :
  config_ok cfg ->
  si7020_holdmode (iio_priv indio_dev) = false ->
  recv_takes_at_most plat D ->
  D + SI7020_NOHOLD_SLEEP_MAX < 2 ^ (BITS_PER_LONG cfg - 1) ->
  si7020_read_raw cfg plat fuel indio_dev chan o IIO_CHAN_INFO_RAW w
  = Some (ret, o', w') ->
  let opcode := if iio_chan_type_eqb (type chan) IIO_TEMP then 0xF3 else 0xF5 in
  let started := snd (i2c_smbus_write_byte plat opcode w) in
  now started <= now w'
  /\ now w' - now started
     < (usecs_to_jiffies cfg (si7020_timeout chan) + 1) * tick_usec cfg + 6000 + D
  /\ reads_attempted (io_log w')
     <= reads_attempted (io_log w) + Z.of_nat (si7020_poll_fuel cfg chan).
Proof.
  intros Hcfg Hmode Hdur Hwrap Hrun opcode started.
  assert (Hwrap' : D + 6001 <= 2 ^ (BITS_PER_LONG cfg - 1))
    by (unfold SI7020_NOHOLD_SLEEP_MAX in Hwrap; lia).
  pose proof Hcfg as [HJ _].
  destruct (si7020_timeout_ticks cfg Hcfg chan) as [Htimeout HT].
  pose proof (Hdur (now w) (bus w)) as HD.
  assert (Hspan : 0 <= (usecs_to_jiffies cfg (si7020_timeout chan) + 1)
                       * tick_usec cfg + 6000) by nia.
  assert (Hfuel : Z.of_nat (si7020_poll_fuel cfg chan)
                  = ((usecs_to_jiffies cfg (si7020_timeout chan) + 1)
                     * tick_usec cfg + 6000) / 2000 + 1).
  { unfold si7020_poll_fuel, SI7020_NOHOLD_SLEEP_MAX, SI7020_NOHOLD_SLEEP_MIN.
    apply Z2Nat.id.
    assert (0 <= ((usecs_to_jiffies cfg (si7020_timeout chan) + 1)
                  * tick_usec cfg + 6000) / 2000) by (apply Z.div_pos; lia).
    lia. }
  assert (Hc0 : reads_attempted (io_log started) = reads_attempted (io_log w)).
  { unfold started. rewrite write_byte_eq. cbn [snd io_log].
    rewrite reads_attempted_app. cbn. lia. }
  rewrite (si7020_read_raw_nohold cfg plat fuel indio_dev chan o w Hmode) in Hrun.
  cbv zeta in Hrun. fold opcode in Hrun. fold started in Hrun.
  assert (Hpos : 0 <= ((usecs_to_jiffies cfg (si7020_timeout chan) + 1)
                       * tick_usec cfg + 6000) / 2000) by (apply Z.div_pos; lia).
  destruct (fst (i2c_smbus_write_byte plat opcode w) <? 0).
  { apply some_triple_inv in Hrun as (-> & -> & ->). lia. }
  destruct (si7020_poll cfg plat fuel chan _ started) as [[[r buf] w2]|] eqn:Hpoll;
    [|discriminate].
  assert (Hw' : w' = w2).
  { unfold si7020_raw_done in Hrun. destruct (r <? 0);
      now apply some_triple_inv in Hrun as (_ & _ & ->). }
  subst w2. clear Hrun.
  pose proof (tick_floor cfg Hcfg (now started)) as Hfloor.
  pose proof (si7020_poll_trace cfg plat _ _ _ _ _ _ _ Hpoll) as (_ & _ & _ & _ & Hmono & _).
  destruct (si7020_poll_budget cfg plat Hcfg chan D (now started) Hdur Hwrap'
              fuel started r buf w') as [Hsoon Hcount]; [nia|exact Hpoll|].
  rewrite Hc0 in Hcount. rewrite Hfuel.
  split; [exact Hmono|]. split; [nia|].
  set (span := (usecs_to_jiffies cfg (si7020_timeout chan) + 1) * tick_usec cfg + 6000) in *.
  set (n := reads_attempted (io_log w') - reads_attempted (io_log w) - 1) in *.
  assert (Hn : 2000 * n < span) by nia.
  assert (n <= span / 2000); [|lia].
  apply Z.div_le_lower_bound; lia.
Qed.

(** A temperature read at HZ=1000 that succeeds at the third attempt, while
    [jiffies] wraps around: 7200 microseconds and three reads, within the
    budget of 18300 microseconds and 10 reads. *)
Lemma nohold_read_polls_within_budget_witness :
  config_ok hz1000
  /\ si7020_holdmode (iio_priv (device_of (client_on no_stretch_adapter None))) = false
  /\ recv_takes_at_most (transport third_time_lucky) 300
  /\ 300 + SI7020_NOHOLD_SLEEP_MAX < 2 ^ (BITS_PER_LONG hz1000 - 1)
  /\ si7020_read_raw hz1000 (transport third_time_lucky) 16
       (device_of (client_on no_stretch_adapter None)) temperature out0
       IIO_CHAN_INFO_RAW before_wrap
     = Some (IIO_VAL_INT, {| val := 5000; val2 := 0 |},
             {| now := 299997200; bus := 3%nat;
                io_log := [IoWriteByte 0xF3 0;
                           IoMasterRecv 2 (- ENXIO) x00 x00;
                           IoUsleepRange 2000 6000 3000;
                           IoMasterRecv 2 (- ENXIO) x00 x00;
                           IoUsleepRange 2000 6000 3000;
                           IoMasterRecv 2 2 x4e x20] |})
  /\ 299990300 <= 299997200
  /\ 299997200 - 299990300 < 18300
  /\ 3 <= 0 + Z.of_nat 10.
Proof.
  assert (Hmode : si7020_holdmode
                    (iio_priv (device_of (client_on no_stretch_adapter None))) = false)
    by reflexivity.
  assert (Hdur : recv_takes_at_most (transport third_time_lucky) 300)
    by (intros t b; cbn; destruct (b <=? 1)%nat; cbn; lia).
  assert (Hwrap : 300 + SI7020_NOHOLD_SLEEP_MAX < 2 ^ (BITS_PER_LONG hz1000 - 1))
    by reflexivity.
  split; [exact hz1000_ok|]. split; [exact Hmode|]. split; [exact Hdur|].
  split; [exact Hwrap|]. split; [reflexivity|].
  exact (nohold_read_polls_within_budget hz1000 (transport third_time_lucky) 16
           (device_of (client_on no_stretch_adapter None)) temperature out0
           before_wrap 300 _ _ _ hz1000_ok Hmode Hdur Hwrap eq_refl).
Defined.
